(** * Food & Beverage Inventory API: the CRUD contract and its conflict policy

    A shallow embedding of [models.py], [schemas.py], [crud.py] and the request
    handlers of [main.py].  The SQLAlchemy session over the SQLite table
    [inventory_items] is the list of its rows in rowid order; a flush either
    commits or raises [IntegrityError], which the crud functions turn into
    [None] after a rollback.  Handlers are functions from a session to a
    response and the session they leave behind. *)

From Stdlib Require Import ZArith List String Ascii Bool Lia.
Import ListNotations.
Open Scope string_scope.
Open Scope list_scope.
Open Scope Z_scope.

(** Python's [==] on two values that may be [None]. *)
Definition option_eqb {A : Type} (eqb : A -> A -> bool) (x y : option A) : bool :=
  match x, y with
  | Some a, Some b => eqb a b
  | None, None => true
  | _, _ => false
  end.

(** ** models.py *)

Module InventoryItem.

(** An ORM object of class [InventoryItem].  Every attribute but the primary
    key may hold [None] on the Python side; the column constraints
    ([nullable=False], [unique=True]) are checked by the database at flush
    time, see [database.UPDATE]. *)
Record t : Type := Build
  { id : Z;
    name : option string;
    description : option string;
    status : option bool }.

End InventoryItem.

(** ** database.py: the session and the table behind it *)

Module database.

(** The rows of [inventory_items], oldest first. *)
Definition Session : Type := list InventoryItem.t.

(** Outcome of [db.commit()]. *)
Inductive Flush (A : Type) : Type :=
| Committed (a : A)
| IntegrityError.
Arguments Committed {A} a.
Arguments IntegrityError {A}.

(** SQLite gives a new row of an [INTEGER PRIMARY KEY] table the largest
    rowid in use plus one, and 1 in an empty table. *)
Definition next_rowid (db : Session) : Z :=
  fold_right Z.max 0 (map InventoryItem.id db) + 1.

(** The unique index on [name]: is the value held by one of [rows]? *)
Definition name_in_use (n : option string) (rows : Session) : bool :=
  existsb (fun r => option_eqb String.eqb (InventoryItem.name r) n) rows.

(** The rows whose primary key is not [pk]. *)
Definition other_rows (db : Session) (pk : Z) : Session :=
  filter (fun r => negb (InventoryItem.id r =? pk)) db.

(** [INSERT INTO inventory_items (name, description, status)]: the only
    constraint a value of these types can break is the unique index. *)
Definition INSERT (db : Session) (name : string) (description : option string)
    (status : bool) : Flush (InventoryItem.t * Session) :=
  if name_in_use (Some name) db then IntegrityError
  else
    let row := InventoryItem.Build (next_rowid db) (Some name) description (Some status) in
    Committed (row, db ++ [row]).

(** [UPDATE inventory_items SET ... WHERE id = ?] with the attributes of the
    ORM object [row]: NOT NULL on [name] and [status], and the unique index on
    [name] against every other row. *)
Definition UPDATE (db : Session) (row : InventoryItem.t) : Flush Session :=
  match InventoryItem.name row, InventoryItem.status row with
  | Some _, Some _ =>
      if name_in_use (InventoryItem.name row) (other_rows db (InventoryItem.id row))
      then IntegrityError
      else Committed
             (map (fun r => if InventoryItem.id r =? InventoryItem.id row then row else r) db)
  | _, _ => IntegrityError
  end.

(** [DELETE FROM inventory_items WHERE id = ?]. *)
Definition DELETE (db : Session) (row : InventoryItem.t) : Session :=
  other_rows db (InventoryItem.id row).

(** The integers the sqlite3 driver can bind as a statement parameter:
    SQLite's INTEGER is a signed 64-bit value.  For a Python [int] outside
    this range the driver raises [OverflowError] before the statement runs;
    nothing in crud.py or main.py catches it, and the request ends in the
    server's plain 500.  The queries below say what the statement returns
    once its parameters are bound; they have no value to give for a
    parameter outside this range, and what is proved of a client's [item_id],
    [skip] or [limit] is proved inside it. *)
Definition INTEGER (v : Z) : Prop := - 2 ^ 63 <= v < 2 ^ 63.

End database.

(** ** schemas.py *)

(** One key of a JSON request body: missing, [null], or a value of the
    field's type. *)
Inductive JSON (A : Type) : Type :=
| Absent
| Null
| Value (a : A).
Arguments Absent {A}.
Arguments Null {A}.
Arguments Value {A} a.

(** The body of a POST or PUT request. *)
Record Body : Type := MkBody
  { body_name : JSON string;
    body_description : JSON string;
    body_status : JSON bool }.

Inductive Field : Type := f_name | f_description | f_status.

Definition Field_eqb (f g : Field) : bool :=
  match f, g with
  | f_name, f_name | f_description, f_description | f_status, f_status => true
  | _, _ => false
  end.

(** One line of a pydantic [ValidationError]: the field and the error type. *)
Definition ErrorDetails : Type := (Field * string)%type.

Definition errors_of {A : Type} (r : ErrorDetails + A) : list ErrorDetails :=
  match r with
  | inl e => [e]
  | inr _ => []
  end.

(** [Field(..., min_length=lo, max_length=hi)] on a [str]: the length of the
    string as sent, in characters. *)
Definition check_length (f : Field) (lo hi : nat) (s : string) : ErrorDetails + string :=
  if (String.length s <? lo)%nat then inl (f, "string_too_short")
  else if (hi <? String.length s)%nat then inl (f, "string_too_long")
  else inr s.

(** [Optional[str] = Field(None, min_length=lo, max_length=hi)]. *)
Definition optional_str (f : Field) (lo hi : nat) (j : JSON string)
    : ErrorDetails + option string :=
  match j with
  | Absent | Null => inr None
  | Value s =>
      match check_length f lo hi s with
      | inl e => inl e
      | inr s' => inr (Some s')
      end
  end.

Module InventoryItemCreate.

Record t : Type := Build
  { name : string;
    description : option string;
    status : bool }.

(** [name: str = Field(..., min_length=1, max_length=100)]. *)
Definition validate_name (j : JSON string) : ErrorDetails + string :=
  match j with
  | Absent => inl (f_name, "missing")
  | Null => inl (f_name, "string_type")
  | Value s => check_length f_name 1 100 s
  end.

(** [description: Optional[str] = Field(None, max_length=500)]. *)
Definition validate_description (j : JSON string) : ErrorDetails + option string :=
  optional_str f_description 0 500 j.

(** [status: bool = Field(True)]. *)
Definition validate_status (j : JSON bool) : ErrorDetails + bool :=
  match j with
  | Absent => inr true
  | Null => inl (f_status, "bool_type")
  | Value b => inr b
  end.

Definition model_validate (b : Body) : list ErrorDetails + t :=
  match validate_name (body_name b),
        validate_description (body_description b),
        validate_status (body_status b) with
  | inr n, inr d, inr s => inr (Build n d s)
  | rn, rd, rs => inl (errors_of rn ++ errors_of rd ++ errors_of rs)
  end.

End InventoryItemCreate.

Module InventoryItemUpdate.

(** The attributes, [None] where the body gave nothing, and pydantic's
    [model_fields_set]: the fields the body gave explicitly, [null] included. *)
Record t : Type := Build
  { name : option string;
    description : option string;
    status : option bool;
    model_fields_set : list Field }.

(** One [(key, value)] pair of the dict [model_dump] returns. *)
Inductive Entry : Type :=
| E_name (v : option string)
| E_description (v : option string)
| E_status (v : option bool).

(** [name: Optional[str] = Field(None, min_length=1, max_length=100)]. *)
Definition validate_name (j : JSON string) : ErrorDetails + option string :=
  optional_str f_name 1 100 j.

(** [description: Optional[str] = Field(None, max_length=500)]. *)
Definition validate_description (j : JSON string) : ErrorDetails + option string :=
  optional_str f_description 0 500 j.

(** [status: Optional[bool] = Field(None)]. *)
Definition validate_status (j : JSON bool) : ErrorDetails + option bool :=
  match j with
  | Absent | Null => inr None
  | Value b => inr (Some b)
  end.

Definition is_set {A : Type} (f : Field) (j : JSON A) : list Field :=
  match j with
  | Absent => []
  | _ => [f]
  end.

Definition model_validate (b : Body) : list ErrorDetails + t :=
  match validate_name (body_name b),
        validate_description (body_description b),
        validate_status (body_status b) with
  | inr n, inr d, inr s =>
      inr (Build n d s
             (is_set f_name (body_name b) ++ is_set f_description (body_description b)
                ++ is_set f_status (body_status b)))
  | rn, rd, rs => inl (errors_of rn ++ errors_of rd ++ errors_of rs)
  end.

Definition was_set (item : t) (f : Field) : bool :=
  existsb (Field_eqb f) (model_fields_set item).

(** [item.model_dump(exclude_unset=True)], in the order the fields are
    declared. *)
Definition model_dump_exclude_unset (item : t) : list Entry :=
  (if was_set item f_name then [E_name (name item)] else [])
  ++ (if was_set item f_description then [E_description (description item)] else [])
  ++ (if was_set item f_status then [E_status (status item)] else []).

End InventoryItemUpdate.

Module InventoryItemResponse.

(** The model every item answer is serialised through: [name] and
    [description] with the bounds of [InventoryItemBase], [id] and [status]
    required. *)
Record t : Type := Build
  { name : string;
    description : option string;
    id : Z;
    status : bool }.

(** [from_attributes = True]: the model is read off the attributes of an ORM
    object, where [name] and [status] may hold [None]. *)
Definition model_validate (obj : InventoryItem.t) : list ErrorDetails + t :=
  let rn := match InventoryItem.name obj with
            | None => inl (f_name, "string_type")
            | Some s => check_length f_name 1 100 s
            end in
  let rd := match InventoryItem.description obj with
            | None => inr None
            | Some s =>
                match check_length f_description 0 500 s with
                | inl e => inl e
                | inr s' => inr (Some s')
                end
            end in
  let rs := match InventoryItem.status obj with
            | None => inl (f_status, "bool_type")
            | Some v => inr v
            end in
  match rn, rd, rs with
  | inr n, inr d, inr v => inr (Build n d (InventoryItem.id obj) v)
  | _, _, _ => inl (errors_of rn ++ errors_of rd ++ errors_of rs)
  end.

End InventoryItemResponse.

(** ** crud.py *)

Module crud.

Import database.

(** [db.query(InventoryItem).filter(InventoryItem.id == item_id).first()],
    for an [item_id] the driver can bind ([database.INTEGER]). *)
Definition get_item (db : Session) (item_id : Z) : option InventoryItem.t :=
  find (fun r => InventoryItem.id r =? item_id) db.

Definition get_item_by_name (db : Session) (name : string) : option InventoryItem.t :=
  find (fun r => option_eqb String.eqb (InventoryItem.name r) (Some name)) db.

(** [db.query(InventoryItem).offset(skip).limit(limit).all()], for a [skip]
    and a [limit] the driver can bind ([database.INTEGER]).  SQLite reads a
    negative OFFSET as zero and a negative LIMIT as no limit. *)
Definition get_items (db : Session) (skip limit : Z) : list InventoryItem.t :=
  let rest := skipn (Z.to_nat skip) db in
  if limit <? 0 then rest else firstn (Z.to_nat limit) rest.

Definition create_item (db : Session) (item : InventoryItemCreate.t)
    : option InventoryItem.t * Session :=
  match INSERT db (InventoryItemCreate.name item) (InventoryItemCreate.description item)
               (InventoryItemCreate.status item) with
  | Committed (db_item, db') => (Some db_item, db')
  | IntegrityError => (None, db)
  end.

(** [setattr(db_item, key, value)]. *)
Definition setattr (db_item : InventoryItem.t) (e : InventoryItemUpdate.Entry)
    : InventoryItem.t :=
  match e with
  | InventoryItemUpdate.E_name v =>
      InventoryItem.Build (InventoryItem.id db_item) v
        (InventoryItem.description db_item) (InventoryItem.status db_item)
  | InventoryItemUpdate.E_description v =>
      InventoryItem.Build (InventoryItem.id db_item) (InventoryItem.name db_item)
        v (InventoryItem.status db_item)
  | InventoryItemUpdate.E_status v =>
      InventoryItem.Build (InventoryItem.id db_item) (InventoryItem.name db_item)
        (InventoryItem.description db_item) v
  end.

(** The lookup binds [item_id] as [get_item] does. *)
Definition update_item (db : Session) (item_id : Z) (item : InventoryItemUpdate.t)
    : option InventoryItem.t * Session :=
  match find (fun r => InventoryItem.id r =? item_id) db with
  | Some db_item =>
      let update_data := InventoryItemUpdate.model_dump_exclude_unset item in
      let db_item' := fold_left setattr update_data db_item in
      match UPDATE db db_item' with
      | Committed db' => (Some db_item', db')
      | IntegrityError => (None, db)
      end
  | None => (None, db)
  end.

(** The lookup binds [item_id] as [get_item] does. *)
Definition delete_item (db : Session) (item_id : Z) : option InventoryItem.t * Session :=
  match find (fun r => InventoryItem.id r =? item_id) db with
  | Some db_item => (Some db_item, DELETE db db_item)
  | None => (None, db)
  end.

End crud.

(** ** main.py *)

Module main.

Import database.

Definition HTTP_200_OK : Z := 200.
Definition HTTP_201_CREATED : Z := 201.
Definition HTTP_204_NO_CONTENT : Z := 204.
Definition HTTP_404_NOT_FOUND : Z := 404.
Definition HTTP_409_CONFLICT : Z := 409.
Definition HTTP_422_UNPROCESSABLE_ENTITY : Z := 422.
Definition HTTP_500_INTERNAL_SERVER_ERROR : Z := 500.

(** What a route answers: a body serialised through
    [InventoryItemResponse], nothing, a raised [HTTPException], or the 422 of
    FastAPI's request validation. *)
Inductive Response : Type :=
| ItemResponse (status_code : Z) (item : InventoryItem.t)
| ListResponse (status_code : Z) (items : list InventoryItem.t)
| EmptyResponse (status_code : Z)
| HTTPException (status_code : Z) (detail : string)
| RequestValidationError (errors : list ErrorDetails).

Definition status_code_of (r : Response) : Z :=
  match r with
  | ItemResponse c _ | ListResponse c _ | EmptyResponse c | HTTPException c _ => c
  | RequestValidationError _ => HTTP_422_UNPROCESSABLE_ENTITY
  end.

(** Commits of other sessions that land between two store calls of one
    request. *)
Definition Interleaving : Type := Session -> Session.

(** A request that runs alone. *)
Definition alone : Interleaving := fun db => db.

(** [other] is what other writers commit between the name check and
    [crud.create_item]. *)
Definition create_inventory_item (other : Interleaving) (item : InventoryItemCreate.t)
    (db : Session) : Response * Session :=
  match crud.get_item_by_name db (InventoryItemCreate.name item) with
  | Some _ =>
      (HTTPException HTTP_409_CONFLICT "Item with this name already exists", db)
  | None =>
      match crud.create_item (other db) item with
      | (None, db') =>
          (HTTPException HTTP_500_INTERNAL_SERVER_ERROR
             "Could not create item due to an unexpected error.", db')
      | (Some created_item, db') => (ItemResponse HTTP_201_CREATED created_item, db')
      end
  end.

(** [skip: int = 0, limit: int = 100]. *)
Definition read_inventory_items (skip limit : option Z) (db : Session)
    : Response * Session :=
  let skip := match skip with Some v => v | None => 0 end in
  let limit := match limit with Some v => v | None => 100 end in
  (ListResponse HTTP_200_OK (crud.get_items db skip limit), db).

Definition read_inventory_item (item_id : Z) (db : Session) : Response * Session :=
  match crud.get_item db item_id with
  | None => (HTTPException HTTP_404_NOT_FOUND "Item not found", db)
  | Some db_item => (ItemResponse HTTP_200_OK db_item, db)
  end.

(** [item.name is not None and item.name != db_item.name], then the lookup
    and [existing_item_with_name.id != item_id]. *)
Definition name_held_by_another (db : Session) (item_id : Z)
    (item : InventoryItemUpdate.t) (db_item : InventoryItem.t) : bool :=
  match InventoryItemUpdate.name item with
  | None => false
  | Some n =>
      if negb (option_eqb String.eqb (Some n) (InventoryItem.name db_item)) then
        match crud.get_item_by_name db n with
        | Some existing_item_with_name =>
            negb (InventoryItem.id existing_item_with_name =? item_id)
        | None => false
        end
      else false
  end.

Definition update_inventory_item (item_id : Z) (item : InventoryItemUpdate.t)
    (db : Session) : Response * Session :=
  match crud.get_item db item_id with
  | None => (HTTPException HTTP_404_NOT_FOUND "Item not found", db)
  | Some db_item =>
      if name_held_by_another db item_id item db_item then
        (HTTPException HTTP_409_CONFLICT "Another item with this name already exists", db)
      else
        match crud.update_item db item_id item with
        | (None, db') =>
            (HTTPException HTTP_500_INTERNAL_SERVER_ERROR
               "Could not update item due to an unexpected error.", db')
        | (Some updated_item, db') => (ItemResponse HTTP_200_OK updated_item, db')
        end
  end.

Definition delete_inventory_item (item_id : Z) (db : Session) : Response * Session :=
  match crud.delete_item db item_id with
  | (None, db') => (HTTPException HTTP_404_NOT_FOUND "Item not found", db')
  | (Some _, db') => (EmptyResponse HTTP_204_NO_CONTENT, db')
  end.

(** The routes: FastAPI validates the body against the handler's schema and
    answers 422 without calling the handler when that fails. *)
Definition POST_items (other : Interleaving) (b : Body) (db : Session)
    : Response * Session :=
  match InventoryItemCreate.model_validate b with
  | inl errors => (RequestValidationError errors, db)
  | inr item => create_inventory_item other item db
  end.

Definition PUT_items (item_id : Z) (b : Body) (db : Session) : Response * Session :=
  match InventoryItemUpdate.model_validate b with
  | inl errors => (RequestValidationError errors, db)
  | inr item => update_inventory_item item_id item db
  end.

End main.

(** ** The properties the contract is stated with *)

Import database.

(** The constraints [models.py] declares on the table: [id] is a primary key,
    [name] is unique and not null, [status] is not null. *)
Definition table_ok (db : Session) : Prop :=
  NoDup (map InventoryItem.id db)
  /\ NoDup (map InventoryItem.name db)
  /\ Forall (fun r => InventoryItem.name r <> None /\ InventoryItem.status r <> None) db.

(** The stored items called [n]. *)
Definition named (n : string) (db : Session) : list InventoryItem.t :=
  filter (fun r => option_eqb String.eqb (InventoryItem.name r) (Some n)) db.

(** A request that writes, served alone. *)
Inductive Request : Type :=
| Create (b : Body)
| Update (item_id : Z) (b : Body)
| Delete (item_id : Z).

Definition serve (db : Session) (r : Request) : Session :=
  match r with
  | Create b => snd (main.POST_items main.alone b db)
  | Update item_id b => snd (main.PUT_items item_id b db)
  | Delete item_id => snd (main.delete_inventory_item item_id db)
  end.

Definition serve_all (rs : list Request) (db : Session) : Session :=
  fold_left serve rs db.

(** The answer to a writing request served alone, with the table it leaves. *)
Definition respond (db : Session) (r : Request) : main.Response * Session :=
  match r with
  | Create b => main.POST_items main.alone b db
  | Update item_id b => main.PUT_items item_id b db
  | Delete item_id => main.delete_inventory_item item_id db
  end.

(** A stored row that the response model accepts. *)
Definition serialisable (r : InventoryItem.t) : Prop :=
  exists v, InventoryItemResponse.model_validate r = inr v.

(** Another stored item than the one with id [i] carries the name the update
    body gives. *)
Definition name_taken_by_another (db : Session) (i : Z) (b : Body) : Prop :=
  exists n Y, body_name b = Value n /\ In Y db
              /\ InventoryItem.name Y = Some n /\ InventoryItem.id Y <> i.

(** The spec's "trimmed length": the length of a name once the white space
    at both ends (space, tab, line feed, vertical tab, form feed, carriage
    return) is taken off.  Nothing in the source trims; this is the measure
    the spec words the name bound with. *)
Definition is_space (c : ascii) : bool :=
  match c with
  | " " | "009" | "010" | "011" | "012" | "013" => true
  | _ => false
  end%char.

Fixpoint lstrip (s : string) : string :=
  match s with
  | EmptyString => EmptyString
  | String c s' => if is_space c then lstrip s' else s
  end.

Fixpoint rstrip (s : string) : string :=
  match s with
  | EmptyString => EmptyString
  | String c s' =>
      match rstrip s' with
      | EmptyString => if is_space c then EmptyString else String c EmptyString
      | kept => String c kept
      end
  end.

Definition trimmed_length (s : string) : nat :=
  String.length (rstrip (lstrip s)).

(** What a field of an updated record must be when the body names it. *)
Definition written {A : Type} (j : JSON A) (stored : option A) : Prop :=
  match j with
  | Absent => True
  | Null => stored = None
  | Value a => stored = Some a
  end.

(** ** Lookups *)

Lemma option_eqb_string (x y : option string) :
  option_eqb String.eqb x y = true <-> x = y.
Proof.
  destruct x as [a|], y as [b|]; simpl; split; intro H;
    try discriminate; try reflexivity.
  - apply String.eqb_eq in H. now subst.
  - injection H as ->. apply String.eqb_refl.
Qed.

Lemma name_in_use_In (n : option string) (rows : Session) :
  name_in_use n rows = true <-> In n (map InventoryItem.name rows).
Proof.
  unfold name_in_use. rewrite existsb_exists, in_map_iff.
  split; intros [r [H1 H2]].
  - exists r. split; [now apply option_eqb_string | assumption].
  - exists r. split; [assumption | now apply option_eqb_string].
Qed.

Lemma get_item_In (db : Session) (i : Z) (r : InventoryItem.t) :
  crud.get_item db i = Some r -> In r db /\ InventoryItem.id r = i.
Proof.
  intro H. apply find_some in H. destruct H as [H1 H2].
  split; [assumption | now apply Z.eqb_eq].
Qed.

Lemma get_item_by_name_In (db : Session) (n : string) (r : InventoryItem.t) :
  crud.get_item_by_name db n = Some r -> In r db /\ InventoryItem.name r = Some n.
Proof.
  intro H. apply find_some in H. destruct H as [H1 H2].
  split; [assumption | now apply option_eqb_string].
Qed.

Lemma get_item_by_name_None (db : Session) (n : string) :
  crud.get_item_by_name db n = None <-> name_in_use (Some n) db = false.
Proof.
  unfold crud.get_item_by_name, name_in_use.
  induction db as [|r db IH]; simpl; [tauto|].
  destruct (option_eqb String.eqb (InventoryItem.name r) (Some n)); simpl;
    [split; discriminate | exact IH].
Qed.

(** Two rows of a table that agree on a unique column are one row. *)
Lemma unique_column_same_row {K : Type} (col : InventoryItem.t -> K) (db : Session)
    (r1 r2 : InventoryItem.t) :
  NoDup (map col db) -> In r1 db -> In r2 db -> col r1 = col r2 -> r1 = r2.
Proof.
  induction db as [|r db IH]; simpl; [tauto|].
  intros Hnd H1 H2 Heq. apply NoDup_cons_iff in Hnd. destruct Hnd as [Hnot Hnd].
  destruct H1 as [-> | H1], H2 as [-> | H2]; auto.
  - exfalso. apply Hnot. rewrite Heq. now apply in_map.
  - exfalso. apply Hnot. rewrite <- Heq. now apply in_map.
Qed.

Lemma other_rows_fresh (db : Session) (pk : Z) :
  ~ In pk (map InventoryItem.id db) -> other_rows db pk = db.
Proof.
  unfold other_rows. induction db as [|r db IH]; simpl; [reflexivity|].
  intro H. destruct (Z.eqb_spec (InventoryItem.id r) pk) as [E|E]; simpl.
  - exfalso. apply H. now left.
  - f_equal. apply IH. intro Hin. apply H. now right.
Qed.

Lemma replace_fresh (db : Session) (row : InventoryItem.t) (pk : Z) :
  ~ In pk (map InventoryItem.id db) ->
  map (fun r => if InventoryItem.id r =? pk then row else r) db = db.
Proof.
  induction db as [|r db IH]; simpl; [reflexivity|].
  intro H. destruct (Z.eqb_spec (InventoryItem.id r) pk) as [E|E].
  - exfalso. apply H. now left.
  - f_equal. apply IH. intro Hin. apply H. now right.
Qed.

(** ** The table constraints are kept by every flush *)

Lemma next_rowid_above (db : Session) (r : InventoryItem.t) :
  In r db -> InventoryItem.id r < next_rowid db.
Proof.
  unfold next_rowid. induction db as [|r' db IH]; simpl; [tauto|].
  intros [-> | H]; [lia | specialize (IH H); lia].
Qed.

Lemma next_rowid_fresh (db : Session) :
  ~ In (next_rowid db) (map InventoryItem.id db).
Proof.
  intro H. apply in_map_iff in H. destruct H as [r [E Hin]].
  apply next_rowid_above in Hin. lia.
Qed.

Lemma NoDup_snoc {A : Type} (l : list A) (a : A) :
  NoDup l -> ~ In a l -> NoDup (l ++ [a]).
Proof.
  intros Hl Ha. apply NoDup_app; [assumption | | ].
  - constructor; [intros [] | constructor].
  - intros b Hb [<- | []]. now apply Ha.
Qed.

Lemma INSERT_ok (db db' : Session) (n : string) (d : option string) (s : bool)
    (row : InventoryItem.t) :
  table_ok db -> INSERT db n d s = Committed (row, db') -> table_ok db'.
Proof.
  intros [Hid [Hname Hnn]]. unfold INSERT.
  destruct (name_in_use (Some n) db) eqn:Huse; [discriminate|].
  intro H. injection H as <- <-.
  assert (Hfree : ~ In (Some n) (map InventoryItem.name db)).
  { intro Hin. apply name_in_use_In in Hin. congruence. }
  repeat split.
  - rewrite map_app. simpl. apply NoDup_snoc; [assumption | apply next_rowid_fresh].
  - rewrite map_app. simpl. now apply NoDup_snoc.
  - apply Forall_app. split; [assumption|].
    constructor; [simpl; split; discriminate | constructor].
Qed.

Lemma NoDup_map_filter {A B : Type} (g : A -> B) (p : A -> bool) (l : list A) :
  NoDup (map g l) -> NoDup (map g (filter p l)).
Proof.
  induction l as [|a l IH]; simpl; [auto|].
  intro H. apply NoDup_cons_iff in H. destruct H as [Hnot Hnd].
  destruct (p a); simpl; [|now apply IH].
  constructor; [|now apply IH].
  intro Hin. apply Hnot. apply in_map_iff in Hin. destruct Hin as [x [E Hx]].
  apply filter_In in Hx. rewrite <- E. apply in_map. tauto.
Qed.

Lemma DELETE_ok (db : Session) (row : InventoryItem.t) :
  table_ok db -> table_ok (DELETE db row).
Proof.
  intros [Hid [Hname Hnn]]. unfold DELETE, other_rows. repeat split.
  - now apply NoDup_map_filter.
  - now apply NoDup_map_filter.
  - rewrite Forall_forall in *. intros r Hr. apply filter_In in Hr. now apply Hnn.
Qed.

Lemma replace_keeps_ids (db : Session) (row : InventoryItem.t) :
  map InventoryItem.id
    (map (fun r => if InventoryItem.id r =? InventoryItem.id row then row else r) db)
  = map InventoryItem.id db.
Proof.
  rewrite map_map. apply map_ext. intro r.
  destruct (Z.eqb_spec (InventoryItem.id r) (InventoryItem.id row)); congruence.
Qed.

Lemma replace_keeps_unique_names (db : Session) (row : InventoryItem.t) :
  NoDup (map InventoryItem.id db) -> NoDup (map InventoryItem.name db) ->
  ~ In (InventoryItem.name row)
       (map InventoryItem.name (other_rows db (InventoryItem.id row))) ->
  NoDup (map InventoryItem.name
           (map (fun r => if InventoryItem.id r =? InventoryItem.id row then row else r) db)).
Proof.
  induction db as [|r db IH]; simpl; [constructor|].
  intros Hid Hname Hfree.
  apply NoDup_cons_iff in Hid. destruct Hid as [Hid1 Hid].
  apply NoDup_cons_iff in Hname. destruct Hname as [Hname1 Hname].
  unfold other_rows in Hfree. simpl in Hfree.
  destruct (Z.eqb_spec (InventoryItem.id r) (InventoryItem.id row)) as [E|E];
    simpl in Hfree.
  - rewrite E in Hid1. fold (other_rows db (InventoryItem.id row)) in Hfree.
    rewrite other_rows_fresh in Hfree by assumption.
    rewrite replace_fresh by assumption. now constructor.
  - fold (other_rows db (InventoryItem.id row)) in Hfree.
    constructor; [|apply IH; tauto].
    rewrite map_map. intro Hin. apply in_map_iff in Hin.
    destruct Hin as [x [Hx Hin]].
    destruct (Z.eqb_spec (InventoryItem.id x) (InventoryItem.id row)).
    + apply Hfree. left. congruence.
    + apply Hname1. rewrite <- Hx. now apply in_map.
Qed.

Lemma UPDATE_ok (db db' : Session) (row : InventoryItem.t) :
  table_ok db -> UPDATE db row = Committed db' -> table_ok db'.
Proof.
  intros [Hid [Hname Hnn]]. unfold UPDATE.
  destruct (InventoryItem.name row) as [n|] eqn:En; [|discriminate].
  destruct (InventoryItem.status row) as [s|] eqn:Es; [|discriminate].
  destruct (name_in_use (Some n) (other_rows db (InventoryItem.id row))) eqn:Huse;
    [discriminate|].
  intro H. injection H as <-. repeat split.
  - now rewrite replace_keeps_ids.
  - apply replace_keeps_unique_names; try assumption.
    rewrite En. intro Hin. apply name_in_use_In in Hin. congruence.
  - rewrite Forall_forall in *. intros r Hr. apply in_map_iff in Hr.
    destruct Hr as [x [Hx Hin]].
    destruct (InventoryItem.id x =? InventoryItem.id row); subst r.
    + rewrite En, Es. split; discriminate.
    + now apply Hnn.
Qed.

Lemma create_item_ok (db : Session) (item : InventoryItemCreate.t) :
  table_ok db -> table_ok (snd (crud.create_item db item)).
Proof.
  intro H. unfold crud.create_item.
  destruct (INSERT db _ _ _) as [[row db']|] eqn:E; simpl; [|assumption].
  eapply INSERT_ok; eassumption.
Qed.

Lemma update_item_ok (db : Session) (i : Z) (item : InventoryItemUpdate.t) :
  table_ok db -> table_ok (snd (crud.update_item db i item)).
Proof.
  intro H. unfold crud.update_item.
  destruct (find _ db) as [db_item|]; [|assumption].
  simpl. destruct (UPDATE db _) as [db'|] eqn:E; simpl; [|assumption].
  eapply UPDATE_ok; eassumption.
Qed.

Lemma delete_item_ok (db : Session) (i : Z) :
  table_ok db -> table_ok (snd (crud.delete_item db i)).
Proof.
  intro H. unfold crud.delete_item.
  destruct (find _ db) as [db_item|]; simpl; [now apply DELETE_ok | assumption].
Qed.

Lemma serve_ok (db : Session) (r : Request) : table_ok db -> table_ok (serve db r).
Proof.
  intro H. destruct r as [b | i b | i]; simpl.
  - unfold main.POST_items.
    destruct (InventoryItemCreate.model_validate b) as [e|item]; [assumption|].
    unfold main.create_inventory_item, main.alone.
    destruct (crud.get_item_by_name db _); [assumption|].
    pose proof (create_item_ok db item H) as Hc.
    destruct (crud.create_item db item) as [[c|] db']; exact Hc.
  - unfold main.PUT_items.
    destruct (InventoryItemUpdate.model_validate b) as [e|item]; [assumption|].
    unfold main.update_inventory_item.
    destruct (crud.get_item db i) as [db_item|]; [|assumption].
    destruct (main.name_held_by_another db i item db_item); [assumption|].
    pose proof (update_item_ok db i item H) as Hu.
    destruct (crud.update_item db i item) as [[c|] db']; exact Hu.
  - unfold main.delete_inventory_item.
    pose proof (delete_item_ok db i H) as Hd.
    destruct (crud.delete_item db i) as [[c|] db']; exact Hd.
Qed.

Lemma serve_all_ok (rs : list Request) (db : Session) :
  table_ok db -> table_ok (serve_all rs db).
Proof.
  unfold serve_all. revert db.
  induction rs as [|r rs IH]; simpl; intros db H; [assumption|].
  apply IH. now apply serve_ok.
Qed.

Lemma named_nobody (db : Session) (n : string) :
  ~ In (Some n) (map InventoryItem.name db) -> named n db = [].
Proof.
  unfold named. induction db as [|x db IH]; simpl; [reflexivity|].
  intro Hnot.
  destruct (option_eqb String.eqb (InventoryItem.name x) (Some n)) eqn:Ex.
  - exfalso. apply option_eqb_string in Ex. apply Hnot. now left.
  - apply IH. intro Hin. apply Hnot. now right.
Qed.

Lemma named_at_most_one (db : Session) (n : string) :
  NoDup (map InventoryItem.name db) -> (List.length (named n db) <= 1)%nat.
Proof.
  induction db as [|r db IH]; simpl; [lia|].
  intro H. apply NoDup_cons_iff in H. destruct H as [Hnot Hnd].
  unfold named. simpl.
  destruct (option_eqb String.eqb (InventoryItem.name r) (Some n)) eqn:E;
    [|now apply IH].
  apply option_eqb_string in E. rewrite E in Hnot.
  fold (named n db). rewrite (named_nobody db n Hnot). simpl. lia.
Qed.

(** ** The handlers *)

(** The constraints of a table written out in full are settled by running
    through its rows. *)
Ltac table_ok_by_computation :=
  repeat split;
  [ repeat constructor; simpl; intuition lia
  | repeat constructor; simpl; intuition discriminate
  | repeat constructor; discriminate ].

(** C6: an id the driver can bind (a signed 64-bit integer) that no stored
    row carries makes read-one, update and delete each answer 404 with detail
    "Item not found", and the table is left as it was.  Outside that range
    the lookup raises and no 404 is answered. *)
Theorem missing_id_is_not_found (i : Z) (item : InventoryItemUpdate.t) (db : Session) :
  database.INTEGER i ->
  crud.get_item db i = None ->
  main.read_inventory_item i db = (main.HTTPException 404 "Item not found", db)
  /\ main.update_inventory_item i item db = (main.HTTPException 404 "Item not found", db)
  /\ main.delete_inventory_item i db = (main.HTTPException 404 "Item not found", db).
Proof.
  intros _ H. unfold main.read_inventory_item, main.update_inventory_item,
    main.delete_inventory_item, crud.delete_item.
  rewrite H. unfold crud.get_item in H. rewrite H. auto.
Qed.

Lemma missing_id_is_not_found_witness :
  let db := [InventoryItem.Build 1 (Some "Bread") (Some "Whole wheat bread") (Some true)] in
  let item := InventoryItemUpdate.Build (Some "NonExistent") (Some "Should fail") None
                [f_name; f_description] in
  database.INTEGER 999
  /\ crud.get_item db 999 = None
  /\ main.read_inventory_item 999 db = (main.HTTPException 404 "Item not found", db)
  /\ main.update_inventory_item 999 item db = (main.HTTPException 404 "Item not found", db)
  /\ main.delete_inventory_item 999 db = (main.HTTPException 404 "Item not found", db).
Proof.
  assert (Hint : database.INTEGER 999) by (unfold database.INTEGER; lia).
  split; [exact Hint|].
  split; [reflexivity | apply missing_id_is_not_found; [exact Hint | reflexivity]].
Defined.

(** C4: whatever sequence of create, update and delete requests is served on
    a table that meets its constraints, the table still meets them, and no
    name is carried by more than one stored item. *)
Theorem name_unique_after_any_requests (rs : list Request) (db : Session) :
  table_ok db ->
  table_ok (serve_all rs db)
  /\ forall n, (List.length (named n (serve_all rs db)) <= 1)%nat.
Proof.
  intro H. pose proof (serve_all_ok rs db H) as Hok.
  split; [assumption|].
  intro n. apply named_at_most_one. apply Hok.
Qed.

Lemma name_unique_after_any_requests_witness :
  let rs := [Create (MkBody (Value "Milk") (Value "Full fat milk") Absent);
             Create (MkBody (Value "Milk") Absent Absent);
             Create (MkBody (Value "Item B") Absent Absent);
             Update 2 (MkBody (Value "Milk") Absent Absent);
             Delete 1;
             Update 2 (MkBody (Value "Milk") Absent (Value false))] in
  table_ok []
  /\ table_ok (serve_all rs [])
  /\ forall n, (List.length (named n (serve_all rs [])) <= 1)%nat.
Proof.
  assert (H0 : table_ok []) by table_ok_by_computation.
  split; [exact H0 | apply name_unique_after_any_requests; exact H0].
Defined.

(** C3: renaming item X to the name another stored item Y carries is refused
    with 409 "Another item with this name already exists", and the table, so
    X's and Y's records with it, stays as it was. *)
Theorem rename_to_taken_name_conflicts (x y : Z) (X Y : InventoryItem.t) (n : string)
    (item : InventoryItemUpdate.t) (db : Session) :
  table_ok db ->
  crud.get_item db x = Some X ->
  crud.get_item db y = Some Y ->
  x <> y ->
  InventoryItem.name Y = Some n ->
  InventoryItemUpdate.name item = Some n ->
  main.update_inventory_item x item db
    = (main.HTTPException 409 "Another item with this name already exists", db)
  /\ crud.get_item (snd (main.update_inventory_item x item db)) x = Some X
  /\ crud.get_item (snd (main.update_inventory_item x item db)) y = Some Y.
Proof.
  intros [Hid [Hname Hnn]] HX HY Hxy HYn Hitem.
  assert (Hgoal : main.update_inventory_item x item db
    = (main.HTTPException 409 "Another item with this name already exists", db)).
  { unfold main.update_inventory_item. rewrite HX.
    apply get_item_In in HX. destruct HX as [HXin HXid].
    apply get_item_In in HY. destruct HY as [HYin HYid].
    unfold main.name_held_by_another. rewrite Hitem.
    destruct (option_eqb String.eqb (Some n) (InventoryItem.name X)) eqn:E.
    - exfalso. apply option_eqb_string in E. apply Hxy.
      assert (X = Y) by (apply (unique_column_same_row InventoryItem.name db);
                         [assumption .. | congruence]).
      congruence.
    - simpl. destruct (crud.get_item_by_name db n) as [Z0|] eqn:Ez.
      + apply get_item_by_name_In in Ez. destruct Ez as [HZin HZn].
        assert (Z0 = Y) by (apply (unique_column_same_row InventoryItem.name db);
                            [assumption .. | congruence]).
        subst Z0. rewrite HYid.
        destruct (Z.eqb_spec y x); [congruence | reflexivity].
      + exfalso. apply get_item_by_name_None in Ez.
        assert (name_in_use (Some n) db = true); [|congruence].
        apply name_in_use_In. rewrite <- HYn. now apply in_map. }
  rewrite Hgoal. simpl. auto.
Qed.

Lemma rename_to_taken_name_conflicts_witness :
  let A := InventoryItem.Build 1 (Some "Item A") None (Some true) in
  let B := InventoryItem.Build 2 (Some "Item B") None (Some true) in
  let item := InventoryItemUpdate.Build (Some "Item A") None None [f_name] in
  main.update_inventory_item 2 item [A; B]
    = (main.HTTPException 409 "Another item with this name already exists", [A; B])
  /\ crud.get_item (snd (main.update_inventory_item 2 item [A; B])) 2 = Some B
  /\ crud.get_item (snd (main.update_inventory_item 2 item [A; B])) 1 = Some A.
Proof.
  apply (rename_to_taken_name_conflicts 2 1 _ _ "Item A"); try reflexivity.
  - table_ok_by_computation.
  - lia.
Defined.

(** ** Partial update *)

Lemma UPDATE_Committed (db db' : Session) (row : InventoryItem.t) :
  UPDATE db row = Committed db' ->
  db' = map (fun r => if InventoryItem.id r =? InventoryItem.id row then row else r) db.
Proof.
  unfold UPDATE.
  destruct (InventoryItem.name row); [|discriminate].
  destruct (InventoryItem.status row); [|discriminate].
  destruct (name_in_use _ _); [discriminate|].
  intro H. now injection H as <-.
Qed.

Lemma setattr_keeps_id (es : list InventoryItemUpdate.Entry) (r : InventoryItem.t) :
  InventoryItem.id (fold_left crud.setattr es r) = InventoryItem.id r.
Proof.
  revert r. induction es as [|e es IH]; intro r; simpl; [reflexivity|].
  rewrite IH. now destruct e.
Qed.

Lemma get_item_replaced (db : Session) (row old : InventoryItem.t) :
  crud.get_item db (InventoryItem.id row) = Some old ->
  crud.get_item
    (map (fun r => if InventoryItem.id r =? InventoryItem.id row then row else r) db)
    (InventoryItem.id row) = Some row.
Proof.
  unfold crud.get_item. induction db as [|r db IH]; simpl; [discriminate|].
  destruct (InventoryItem.id r =? InventoryItem.id row) eqn:E; simpl.
  - now rewrite Z.eqb_refl.
  - rewrite E. exact IH.
Qed.

Lemma get_item_not_replaced (db : Session) (row : InventoryItem.t) (j : Z) :
  j <> InventoryItem.id row ->
  crud.get_item
    (map (fun r => if InventoryItem.id r =? InventoryItem.id row then row else r) db) j
  = crud.get_item db j.
Proof.
  intro Hj. unfold crud.get_item. induction db as [|r db IH]; simpl; [reflexivity|].
  destruct (Z.eqb_spec (InventoryItem.id r) (InventoryItem.id row)) as [E|E].
  - destruct (Z.eqb_spec (InventoryItem.id row) j); [congruence|].
    destruct (Z.eqb_spec (InventoryItem.id r) j); [congruence | exact IH].
  - destruct (InventoryItem.id r =? j); [reflexivity | exact IH].
Qed.

(** What the [setattr] loop leaves in the ORM object. *)
Lemma setattr_loop (item : InventoryItemUpdate.t) (old : InventoryItem.t) :
  let new := fold_left crud.setattr (InventoryItemUpdate.model_dump_exclude_unset item) old in
  InventoryItem.name new
    = (if InventoryItemUpdate.was_set item f_name then InventoryItemUpdate.name item
       else InventoryItem.name old)
  /\ InventoryItem.description new
    = (if InventoryItemUpdate.was_set item f_description
       then InventoryItemUpdate.description item else InventoryItem.description old)
  /\ InventoryItem.status new
    = (if InventoryItemUpdate.was_set item f_status then InventoryItemUpdate.status item
       else InventoryItem.status old).
Proof.
  unfold InventoryItemUpdate.model_dump_exclude_unset.
  destruct (InventoryItemUpdate.was_set item f_name),
    (InventoryItemUpdate.was_set item f_description),
    (InventoryItemUpdate.was_set item f_status); simpl; auto.
Qed.

(** The handler on a validated update: the record is still there, a field
    outside [model_fields_set] keeps its value, no other record moves, and a
    200 answer carries the record with the given fields written. *)
Lemma update_inventory_item_frame (i : Z) (item : InventoryItemUpdate.t)
    (old : InventoryItem.t) (db : Session) :
  crud.get_item db i = Some old ->
  exists new,
    crud.get_item (snd (main.update_inventory_item i item db)) i = Some new
    /\ (InventoryItemUpdate.was_set item f_name = false ->
        InventoryItem.name new = InventoryItem.name old)
    /\ (InventoryItemUpdate.was_set item f_description = false ->
        InventoryItem.description new = InventoryItem.description old)
    /\ (InventoryItemUpdate.was_set item f_status = false ->
        InventoryItem.status new = InventoryItem.status old)
    /\ (forall j, j <> i ->
        crud.get_item (snd (main.update_inventory_item i item db)) j = crud.get_item db j)
    /\ (main.status_code_of (fst (main.update_inventory_item i item db)) = 200 ->
        fst (main.update_inventory_item i item db) = main.ItemResponse 200 new
        /\ (InventoryItemUpdate.was_set item f_name = true ->
            InventoryItem.name new = InventoryItemUpdate.name item)
        /\ (InventoryItemUpdate.was_set item f_description = true ->
            InventoryItem.description new = InventoryItemUpdate.description item)
        /\ (InventoryItemUpdate.was_set item f_status = true ->
            InventoryItem.status new = InventoryItemUpdate.status item)).
Proof.
  intro Hget. pose proof (get_item_In _ _ _ Hget) as [_ Hid].
  unfold main.update_inventory_item. rewrite Hget.
  destruct (main.name_held_by_another db i item old).
  { exists old. simpl. repeat (split; [solve [auto]|]). intro H. discriminate H. }
  unfold crud.update_item. unfold crud.get_item in Hget. rewrite Hget.
  cbv zeta.
  pose proof (setattr_loop item old) as [Hn [Hd Hs]].
  pose proof (setattr_keeps_id (InventoryItemUpdate.model_dump_exclude_unset item) old)
    as Hnewid.
  set (new := fold_left crud.setattr (InventoryItemUpdate.model_dump_exclude_unset item) old)
    in *.
  destruct (UPDATE db new) as [db'|] eqn:Eu.
  - apply UPDATE_Committed in Eu. subst db'. exists new. simpl.
    assert (Hi : InventoryItem.id new = i) by congruence.
    split; [|split; [|split; [|split; [|split]]]].
    + rewrite <- Hi. apply (get_item_replaced db new old). unfold crud.get_item.
      now rewrite Hi.
    + intro H. now rewrite Hn, H.
    + intro H. now rewrite Hd, H.
    + intro H. now rewrite Hs, H.
    + intros j Hj. apply get_item_not_replaced. congruence.
    + intros _. split; [reflexivity|].
      split; [|split]; intro H; [now rewrite Hn, H | now rewrite Hd, H | now rewrite Hs, H].
  - exists old. simpl. repeat (split; [solve [auto]|]). intro H. discriminate H.
Qed.

(** What a body that validates as an update turns into. *)
Lemma InventoryItemUpdate_validated (b : Body) (item : InventoryItemUpdate.t) :
  InventoryItemUpdate.model_validate b = inr item ->
  written (body_name b) (InventoryItemUpdate.name item)
  /\ written (body_description b) (InventoryItemUpdate.description item)
  /\ written (body_status b) (InventoryItemUpdate.status item)
  /\ InventoryItemUpdate.was_set item f_name
     = match body_name b with Absent => false | _ => true end
  /\ InventoryItemUpdate.was_set item f_description
     = match body_description b with Absent => false | _ => true end
  /\ InventoryItemUpdate.was_set item f_status
     = match body_status b with Absent => false | _ => true end.
Proof.
  unfold InventoryItemUpdate.model_validate, InventoryItemUpdate.validate_name,
    InventoryItemUpdate.validate_description, InventoryItemUpdate.validate_status,
    optional_str.
  destruct b as [jn jd js]; simpl.
  destruct jn as [| |n]; destruct jd as [| |d]; destruct js as [| |s];
    try destruct (check_length f_name 1 100 n) as [en|n'] eqn:En;
    try destruct (check_length f_description 0 500 d) as [ed|d'] eqn:Ed;
    intro H; try discriminate; injection H as <-; simpl;
    try (unfold check_length in En;
         destruct (String.length n <? 1)%nat; [discriminate|];
         destruct (100 <? String.length n)%nat; [discriminate|];
         injection En as <-);
    try (unfold check_length in Ed;
         destruct (String.length d <? 0)%nat; [discriminate|];
         destruct (500 <? String.length d)%nat; [discriminate|];
         injection Ed as <-);
    repeat split; reflexivity.
Qed.

(** C1: an update of a stored item leaves every field the request body does
    not name at its stored value, and every other record as it was; when the
    update goes through (200), the named fields hold what the body gave. *)
Theorem update_changes_only_given_fields (i : Z) (b : Body) (old : InventoryItem.t)
    (db : Session) :
  crud.get_item db i = Some old ->
  exists new,
    crud.get_item (snd (main.PUT_items i b db)) i = Some new
    /\ (body_name b = Absent -> InventoryItem.name new = InventoryItem.name old)
    /\ (body_description b = Absent ->
        InventoryItem.description new = InventoryItem.description old)
    /\ (body_status b = Absent -> InventoryItem.status new = InventoryItem.status old)
    /\ (forall j, j <> i ->
        crud.get_item (snd (main.PUT_items i b db)) j = crud.get_item db j)
    /\ (main.status_code_of (fst (main.PUT_items i b db)) = 200 ->
        fst (main.PUT_items i b db) = main.ItemResponse 200 new
        /\ written (body_name b) (InventoryItem.name new)
        /\ written (body_description b) (InventoryItem.description new)
        /\ written (body_status b) (InventoryItem.status new)).
Proof.
  intro Hget. unfold main.PUT_items.
  destruct (InventoryItemUpdate.model_validate b) as [errors|item] eqn:Ev.
  { exists old. simpl. repeat (split; [solve [auto]|]). intro H. discriminate H. }
  destruct (InventoryItemUpdate_validated b item Ev) as [Wn [Wd [Ws [Sn [Sd Ss]]]]].
  destruct (update_inventory_item_frame i item old db Hget)
    as [new [H1 [H2 [H3 [H4 [H5 H6]]]]]].
  exists new.
  split; [exact H1|].
  split; [intro E; apply H2; now rewrite Sn, E|].
  split; [intro E; apply H3; now rewrite Sd, E|].
  split; [intro E; apply H4; now rewrite Ss, E|].
  split; [exact H5|].
  intro Hok. destruct (H6 Hok) as [Hr [Gn [Gd Gs]]].
  split; [exact Hr|].
  split; [|split].
  - destruct (body_name b); simpl in *; [exact I | | ]; rewrite (Gn Sn); exact Wn.
  - destruct (body_description b); simpl in *; [exact I | | ]; rewrite (Gd Sd); exact Wd.
  - destruct (body_status b); simpl in *; [exact I | | ]; rewrite (Gs Ss); exact Ws.
Qed.

Lemma update_changes_only_given_fields_witness :
  let old := InventoryItem.Build 1 (Some "Sugar") (Some "White granulated sugar") (Some true) in
  let b := MkBody Absent (Value "Brown sugar alternative") (Value false) in
  crud.get_item [old] 1 = Some old
  /\ exists new,
    crud.get_item (snd (main.PUT_items 1 b [old])) 1 = Some new
    /\ (body_name b = Absent -> InventoryItem.name new = InventoryItem.name old)
    /\ (body_description b = Absent ->
        InventoryItem.description new = InventoryItem.description old)
    /\ (body_status b = Absent -> InventoryItem.status new = InventoryItem.status old)
    /\ (forall j, j <> 1 ->
        crud.get_item (snd (main.PUT_items 1 b [old])) j = crud.get_item [old] j)
    /\ (main.status_code_of (fst (main.PUT_items 1 b [old])) = 200 ->
        fst (main.PUT_items 1 b [old]) = main.ItemResponse 200 new
        /\ written (body_name b) (InventoryItem.name new)
        /\ written (body_description b) (InventoryItem.description new)
        /\ written (body_status b) (InventoryItem.status new)).
Proof.
  split; [reflexivity | apply update_changes_only_given_fields; reflexivity].
Defined.

(** A row written back with nothing changed passes every constraint and
    leaves the table as it was. *)
Lemma UPDATE_unchanged (db : Session) (old : InventoryItem.t) :
  table_ok db -> In old db -> UPDATE db old = Committed db.
Proof.
  intros [Hid [Hname Hnn]] Hin. unfold UPDATE.
  rewrite Forall_forall in Hnn. destruct (Hnn old Hin) as [Hn Hs].
  destruct (InventoryItem.name old) as [n|] eqn:En; [|congruence].
  destruct (InventoryItem.status old) as [s|] eqn:Es; [|congruence].
  destruct (name_in_use (Some n) (other_rows db (InventoryItem.id old))) eqn:Huse.
  - exfalso. apply name_in_use_In in Huse. apply in_map_iff in Huse.
    destruct Huse as [r [Hr Hrin]]. unfold other_rows in Hrin.
    apply filter_In in Hrin. destruct Hrin as [Hrin Hne].
    assert (r = old) by (apply (unique_column_same_row InventoryItem.name db);
                         [assumption .. | congruence]).
    subst r. rewrite Z.eqb_refl in Hne. discriminate.
  - assert (Hsame : map (fun r => if InventoryItem.id r =? InventoryItem.id old
                                  then old else r) db = db).
    { transitivity (map (fun r : InventoryItem.t => r) db); [|apply map_id].
      apply map_ext_in. intros r Hrin.
      destruct (Z.eqb_spec (InventoryItem.id r) (InventoryItem.id old)) as [E|E];
        [|reflexivity].
      symmetry. now apply (unique_column_same_row InventoryItem.id db). }
    now rewrite Hsame.
Qed.

(** C9: an update whose body names no field, on a stored item, answers 200
    with the item as stored and leaves the table as it was. *)
Theorem empty_update_is_noop (i : Z) (old : InventoryItem.t) (db : Session) :
  table_ok db ->
  crud.get_item db i = Some old ->
  main.PUT_items i (MkBody Absent Absent Absent) db = (main.ItemResponse 200 old, db).
Proof.
  intros Hok Hget. pose proof (get_item_In _ _ _ Hget) as [Hin _].
  unfold main.PUT_items. simpl.
  unfold main.update_inventory_item. rewrite Hget.
  unfold main.name_held_by_another. simpl.
  unfold crud.update_item. unfold crud.get_item in Hget. rewrite Hget. simpl.
  now rewrite (UPDATE_unchanged db old Hok Hin).
Qed.

Lemma empty_update_is_noop_witness :
  let A := InventoryItem.Build 1 (Some "Item A") None (Some true) in
  let B := InventoryItem.Build 2 (Some "Item B") (Some "second") (Some false) in
  main.PUT_items 2 (MkBody Absent Absent Absent) [A; B] = (main.ItemResponse 200 B, [A; B]).
Proof.
  apply empty_update_is_noop; [|reflexivity].
  table_ok_by_computation.
Defined.

(** C10: a body that gives [name] as [null] (its description within bounds)
    validates as an update with [name] set to [None]; the handler's name
    check does not fire; the dumped dict carries the pair name = None; the
    flush breaks the NOT NULL constraint; and the request on a stored item is
    answered 500, not 422, with the table as it was. *)
Theorem null_name_update_is_internal_error (i : Z) (b : Body) (old : InventoryItem.t)
    (db : Session) :
  body_name b = Null ->
  (forall d, body_description b = Value d -> (String.length d <= 500)%nat) ->
  crud.get_item db i = Some old ->
  exists item,
    InventoryItemUpdate.model_validate b = inr item
    /\ InventoryItemUpdate.name item = None
    /\ main.name_held_by_another db i item old = false
    /\ In (InventoryItemUpdate.E_name None) (InventoryItemUpdate.model_dump_exclude_unset item)
    /\ UPDATE db (fold_left crud.setattr (InventoryItemUpdate.model_dump_exclude_unset item) old)
       = IntegrityError
    /\ main.PUT_items i b db
       = (main.HTTPException 500 "Could not update item due to an unexpected error.", db).
Proof.
  intros Hnull Hdesc Hget.
  assert (Hv : exists item, InventoryItemUpdate.model_validate b = inr item).
  { unfold InventoryItemUpdate.model_validate, InventoryItemUpdate.validate_name,
      InventoryItemUpdate.validate_description, InventoryItemUpdate.validate_status,
      optional_str. rewrite Hnull.
    destruct (body_description b) as [| |d] eqn:Ed.
    - destruct (body_status b); eexists; reflexivity.
    - destruct (body_status b); eexists; reflexivity.
    - specialize (Hdesc d eq_refl). unfold check_length. simpl.
      destruct (Nat.ltb_spec 500 (String.length d)); [lia|].
      destruct (body_status b); eexists; reflexivity. }
  destruct Hv as [item Hv]. exists item.
  destruct (InventoryItemUpdate_validated b item Hv) as [Wn [_ [_ [Sn _]]]].
  rewrite Hnull in Wn, Sn. simpl in Wn.
  pose proof (setattr_loop item old) as [Hn _]. rewrite Sn, Wn in Hn.
  assert (Hpre : main.name_held_by_another db i item old = false).
  { unfold main.name_held_by_another. now rewrite Wn. }
  assert (Hflush : UPDATE db
            (fold_left crud.setattr (InventoryItemUpdate.model_dump_exclude_unset item) old)
            = IntegrityError).
  { unfold UPDATE. now rewrite Hn. }
  split; [exact Hv|]. split; [exact Wn|]. split; [exact Hpre|].
  split.
  { unfold InventoryItemUpdate.model_dump_exclude_unset. rewrite Sn, Wn. now left. }
  split; [exact Hflush|].
  unfold main.PUT_items. rewrite Hv.
  unfold main.update_inventory_item. rewrite Hget, Hpre.
  unfold crud.update_item. unfold crud.get_item in Hget. rewrite Hget.
  cbv zeta. now rewrite Hflush.
Qed.

Lemma null_name_update_is_internal_error_witness :
  let old := InventoryItem.Build 1 (Some "Sugar") (Some "White granulated sugar") (Some true) in
  let b := MkBody Null Absent Absent in
  exists item,
    InventoryItemUpdate.model_validate b = inr item
    /\ InventoryItemUpdate.name item = None
    /\ main.name_held_by_another [old] 1 item old = false
    /\ In (InventoryItemUpdate.E_name None) (InventoryItemUpdate.model_dump_exclude_unset item)
    /\ UPDATE [old]
         (fold_left crud.setattr (InventoryItemUpdate.model_dump_exclude_unset item) old)
       = IntegrityError
    /\ main.PUT_items 1 b [old]
       = (main.HTTPException 500 "Could not update item due to an unexpected error.", [old]).
Proof.
  apply null_name_update_is_internal_error; [reflexivity | | reflexivity].
  intros d H. discriminate H.
Defined.

(** ** Creation *)

Lemma check_length_inr (f : Field) (lo hi : nat) (s v : string) :
  check_length f lo hi s = inr v <-> v = s /\ (lo <= String.length s <= hi)%nat.
Proof.
  unfold check_length.
  destruct (Nat.ltb_spec (String.length s) lo);
    [|destruct (Nat.ltb_spec hi (String.length s))]; split.
  - discriminate.
  - intros [_ H']. lia.
  - discriminate.
  - intros [_ H']. lia.
  - intro E. injection E as <-. split; [reflexivity | lia].
  - intros [-> _]. reflexivity.
Qed.

(** What a body that validates as a creation turns into. *)
Lemma InventoryItemCreate_validated (b : Body) (item : InventoryItemCreate.t) :
  InventoryItemCreate.model_validate b = inr item <->
  body_name b = Value (InventoryItemCreate.name item)
  /\ (1 <= String.length (InventoryItemCreate.name item) <= 100)%nat
  /\ match body_description b with
     | Value d => InventoryItemCreate.description item = Some d
                  /\ (String.length d <= 500)%nat
     | _ => InventoryItemCreate.description item = None
     end
  /\ match body_status b with
     | Absent => InventoryItemCreate.status item = true
     | Null => False
     | Value s => InventoryItemCreate.status item = s
     end.
Proof.
  destruct b as [jn jd js], item as [n d s].
  unfold InventoryItemCreate.model_validate, InventoryItemCreate.validate_name,
    InventoryItemCreate.validate_description, InventoryItemCreate.validate_status,
    optional_str. simpl.
  split.
  - destruct jn as [| |n0]; try discriminate.
    destruct (check_length f_name 1 100 n0) as [e|n1] eqn:En.
    { destruct jd as [| |d0]; try destruct (check_length f_description 0 500 d0);
        destruct js; discriminate. }
    apply check_length_inr in En. destruct En as [-> En].
    destruct jd as [| |d0];
      try (destruct (check_length f_description 0 500 d0) as [e|d1] eqn:Ed;
           [destruct js; discriminate | apply check_length_inr in Ed; destruct Ed as [-> Ed]]);
      destruct js as [| |s0]; try discriminate; intro H; injection H as <- <- <-;
      repeat split; auto; lia.
  - intros [Hn [Hlen [Hd Hs]]]. subst jn.
    assert (En : check_length f_name 1 100 n = inr n) by (apply check_length_inr; auto).
    rewrite En.
    destruct jd as [| |d0].
    + subst d. destruct js as [| |s0]; [now subst s | contradiction | now subst s].
    + subst d. destruct js as [| |s0]; [now subst s | contradiction | now subst s].
    + destruct Hd as [-> Hd].
      assert (Ed : check_length f_description 0 500 d0 = inr d0)
        by (apply check_length_inr; split; [reflexivity | lia]).
      rewrite Ed. destruct js as [| |s0]; [now subst s | contradiction | now subst s].
Qed.

Lemma InventoryItemCreate_rejected (b : Body) (errors : list ErrorDetails) :
  InventoryItemCreate.model_validate b = inl errors -> errors <> [].
Proof.
  unfold InventoryItemCreate.model_validate.
  destruct (InventoryItemCreate.validate_name (body_name b)) as [en|n];
    destruct (InventoryItemCreate.validate_description (body_description b)) as [ed|d];
    destruct (InventoryItemCreate.validate_status (body_status b)) as [es|s];
    intro H; try discriminate; injection H as <-; discriminate.
Qed.

Lemma get_item_appended (db : Session) (row : InventoryItem.t) :
  ~ In (InventoryItem.id row) (map InventoryItem.id db) ->
  crud.get_item (db ++ [row]) (InventoryItem.id row) = Some row.
Proof.
  unfold crud.get_item. induction db as [|r db IH]; simpl; intro H.
  - now rewrite Z.eqb_refl.
  - destruct (Z.eqb_spec (InventoryItem.id r) (InventoryItem.id row)) as [E|E].
    + exfalso. apply H. now left.
    + apply IH. intro Hin. apply H. now right.
Qed.

(** The store call of the create handler when the name is free. *)
Lemma create_item_free_name (db : Session) (item : InventoryItemCreate.t) :
  crud.get_item_by_name db (InventoryItemCreate.name item) = None ->
  let created := InventoryItem.Build (next_rowid db) (Some (InventoryItemCreate.name item))
                   (InventoryItemCreate.description item)
                   (Some (InventoryItemCreate.status item)) in
  crud.create_item db item = (Some created, db ++ [created]).
Proof.
  intro H. apply get_item_by_name_None in H.
  unfold crud.create_item, INSERT. now rewrite H.
Qed.

(** The store call of the create handler when the name is taken. *)
Lemma create_item_taken_name (db : Session) (item : InventoryItemCreate.t) :
  crud.get_item_by_name db (InventoryItemCreate.name item) <> None ->
  crud.create_item db item = (None, db).
Proof.
  intro H. unfold crud.create_item, INSERT.
  destruct (name_in_use (Some (InventoryItemCreate.name item)) db) eqn:E; [reflexivity|].
  apply get_item_by_name_None in E. contradiction.
Qed.

(** C5: a valid creation body whose name no stored item carries is answered
    201 with a new record; reading the returned id answers 200 with that same
    record, whose name is the body's, whose description is the body's or
    [None] when the body gives none, whose status is the body's or [True] when
    the body gives none, and whose id no earlier record carries. *)
Theorem create_then_read_round_trip (b : Body) (item : InventoryItemCreate.t)
    (db : Session) :
  InventoryItemCreate.model_validate b = inr item ->
  crud.get_item_by_name db (InventoryItemCreate.name item) = None ->
  exists created,
    main.POST_items main.alone b db = (main.ItemResponse 201 created, db ++ [created])
    /\ main.read_inventory_item (InventoryItem.id created) (db ++ [created])
       = (main.ItemResponse 200 created, db ++ [created])
    /\ body_name b = Value (InventoryItemCreate.name item)
    /\ InventoryItem.name created = Some (InventoryItemCreate.name item)
    /\ InventoryItem.description created
       = match body_description b with Value d => Some d | _ => None end
    /\ body_status b <> Null
    /\ InventoryItem.status created
       = Some (match body_status b with Value s => s | _ => true end)
    /\ ~ In (InventoryItem.id created) (map InventoryItem.id db).
Proof.
  intros Hv Hfree.
  pose proof (create_item_free_name db item Hfree) as Hc. cbv zeta in Hc.
  set (created := InventoryItem.Build (next_rowid db) (Some (InventoryItemCreate.name item))
                    (InventoryItemCreate.description item)
                    (Some (InventoryItemCreate.status item))) in *.
  exists created.
  apply InventoryItemCreate_validated in Hv as Hfields.
  destruct Hfields as [Hn [_ [Hd Hs]]].
  split.
  { unfold main.POST_items. rewrite Hv.
    unfold main.create_inventory_item, main.alone. now rewrite Hfree, Hc. }
  split.
  { unfold main.read_inventory_item.
    rewrite (get_item_appended db created); [reflexivity | apply next_rowid_fresh]. }
  split; [exact Hn|]. split; [reflexivity|].
  split.
  { simpl. destruct (body_description b); [assumption | assumption | tauto]. }
  split.
  { intro E. now rewrite E in Hs. }
  split.
  { simpl. destruct (body_status b); [now rewrite Hs | contradiction | now rewrite Hs]. }
  apply next_rowid_fresh.
Qed.

Lemma create_then_read_round_trip_witness :
  let b := MkBody (Value "Milk") Absent Absent in
  let db := [InventoryItem.Build 1 (Some "Coffee Beans") (Some "Arabica dark roast") (Some true)] in
  exists created,
    main.POST_items main.alone b db = (main.ItemResponse 201 created, db ++ [created])
    /\ main.read_inventory_item (InventoryItem.id created) (db ++ [created])
       = (main.ItemResponse 200 created, db ++ [created])
    /\ body_name b = Value "Milk"
    /\ InventoryItem.name created = Some "Milk"
    /\ InventoryItem.description created
       = match body_description b with Value d => Some d | _ => None end
    /\ body_status b <> Null
    /\ InventoryItem.status created
       = Some (match body_status b with Value s => s | _ => true end)
    /\ ~ In (InventoryItem.id created) (map InventoryItem.id db).
Proof.
  apply (create_then_read_round_trip _ (InventoryItemCreate.Build "Milk" None true));
    reflexivity.
Defined.

(** C8, the claim as worded fails: the name made of one space has trimmed
    length 0, yet the schema accepts it and the item is created. *)
Lemma blank_name_is_accepted :
  let b := MkBody (Value " ") Absent Absent in
  trimmed_length " " = 0%nat
  /\ InventoryItemCreate.model_validate b = inr (InventoryItemCreate.Build " " None true)
  /\ main.POST_items main.alone b []
     = (main.ItemResponse 201 (InventoryItem.Build 1 (Some " ") None (Some true)),
        [InventoryItem.Build 1 (Some " ") None (Some true)]).
Proof.
  repeat split.
Qed.

(** C8, amended: a creation body is accepted exactly when its name is a
    string whose length as sent, white space included, is between 1 and 100,
    its description, when given, has length at most 500, and its status is
    not [null]; a body that is not accepted is answered 422 with the errors
    of the schema and the table as it was. *)
Theorem creation_input_bounds (b : Body) (other : main.Interleaving) (db : Session) :
  ((exists item, InventoryItemCreate.model_validate b = inr item) <->
   (exists n, body_name b = Value n /\ (1 <= String.length n <= 100)%nat)
   /\ (forall d, body_description b = Value d -> (String.length d <= 500)%nat)
   /\ body_status b <> Null)
  /\ ((~ exists item, InventoryItemCreate.model_validate b = inr item) ->
      exists errors,
        errors <> []
        /\ main.POST_items other b db = (main.RequestValidationError errors, db)
        /\ main.status_code_of (fst (main.POST_items other b db)) = 422).
Proof.
  split.
  - split.
    + intros [item Hv]. apply InventoryItemCreate_validated in Hv.
      destruct Hv as [Hn [Hlen [Hd Hs]]].
      split; [exists (InventoryItemCreate.name item); auto|].
      split.
      * intros d E. rewrite E in Hd. tauto.
      * intro E. now rewrite E in Hs.
    + intros [[n [Hn Hlen]] [Hd Hs]].
      exists (InventoryItemCreate.Build n
                (match body_description b with Value d => Some d | _ => None end)
                (match body_status b with Value s => s | _ => true end)).
      apply InventoryItemCreate_validated. simpl.
      split; [assumption|]. split; [assumption|].
      split.
      * destruct (body_description b) as [| |d]; auto.
      * destruct (body_status b); [reflexivity | congruence | reflexivity].
  - intro Hno. unfold main.POST_items.
    destruct (InventoryItemCreate.model_validate b) as [errors|item] eqn:Ev.
    + exists errors. split; [now apply (InventoryItemCreate_rejected b)|].
      split; reflexivity.
    + exfalso. apply Hno. now exists item.
Qed.

Lemma creation_input_bounds_witness :
  let b := MkBody (Value "") (Value "Full fat milk") (Value true) in
  let db := [InventoryItem.Build 1 (Some "Milk") None (Some true)] in
  (~ exists item, InventoryItemCreate.model_validate b = inr item)
  /\ exists errors,
       errors <> []
       /\ main.POST_items main.alone b db = (main.RequestValidationError errors, db)
       /\ main.status_code_of (fst (main.POST_items main.alone b db)) = 422.
Proof.
  assert (H : ~ exists item,
              InventoryItemCreate.model_validate
                (MkBody (Value "") (Value "Full fat milk") (Value true)) = inr item).
  { intros [item E]. discriminate E. }
  split; [exact H|].
  apply (proj2 (creation_input_bounds _ main.alone _)). exact H.
Defined.

(** C2, the claim as worded fails: the name check finds nothing, another
    writer commits an item of the same name before the insert, the store
    reports the conflict, and the handler answers 500, not 409. *)
Lemma create_race_is_internal_error :
  let item := InventoryItemCreate.Build "Milk" (Some "Full fat milk") true in
  let other : main.Interleaving :=
    fun db => snd (crud.create_item db (InventoryItemCreate.Build "Milk" None true)) in
  crud.get_item_by_name [] "Milk" = None
  /\ INSERT (other []) "Milk" (Some "Full fat milk") true = IntegrityError
  /\ crud.create_item (other []) item = (None, other [])
  /\ main.create_inventory_item other item []
     = (main.HTTPException 500 "Could not create item due to an unexpected error.",
        other [])
  /\ main.status_code_of (fst (main.create_inventory_item other item [])) <> 409.
Proof.
  repeat split. discriminate.
Qed.

(** C2, amended: when the name check finds an item the handler answers 409
    "Item with this name already exists" and the table is as it was; when the
    check finds none but the store's create reports a uniqueness conflict,
    the handler answers 500 and adds nothing to the table; otherwise it
    answers 201 with the record added.  The 500 answer arises in no other
    way. *)
Theorem create_conflict_outcomes (other : main.Interleaving)
    (item : InventoryItemCreate.t) (db : Session) :
  let n := InventoryItemCreate.name item in
  (crud.get_item_by_name db n <> None ->
   main.create_inventory_item other item db
   = (main.HTTPException 409 "Item with this name already exists", db))
  /\ (crud.get_item_by_name db n = None ->
      crud.get_item_by_name (other db) n <> None ->
      crud.create_item (other db) item = (None, other db)
      /\ main.create_inventory_item other item db
         = (main.HTTPException 500 "Could not create item due to an unexpected error.",
            other db))
  /\ (crud.get_item_by_name db n = None ->
      crud.get_item_by_name (other db) n = None ->
      exists created,
        main.create_inventory_item other item db
        = (main.ItemResponse 201 created, other db ++ [created]))
  /\ (main.status_code_of (fst (main.create_inventory_item other item db)) = 500 ->
      crud.get_item_by_name db n = None /\ crud.get_item_by_name (other db) n <> None).
Proof.
  intro n. unfold main.create_inventory_item. fold n.
  split; [|split; [|split]].
  - intro H. destruct (crud.get_item_by_name db n); [reflexivity | congruence].
  - intros H1 H2. rewrite H1.
    rewrite (create_item_taken_name (other db) item H2). auto.
  - intros H1 H2. rewrite H1.
    pose proof (create_item_free_name (other db) item H2) as Hc. cbv zeta in Hc.
    rewrite Hc. eexists. reflexivity.
  - destruct (crud.get_item_by_name db n) eqn:H1; [discriminate|].
    destruct (crud.get_item_by_name (other db) n) eqn:H2.
    + intros _. split; [reflexivity | discriminate].
    + pose proof (create_item_free_name (other db) item H2) as Hc. cbv zeta in Hc.
      rewrite Hc. discriminate.
Qed.

Lemma create_conflict_outcomes_witness :
  let item := InventoryItemCreate.Build "Milk" (Some "Full fat milk") true in
  let db := [InventoryItem.Build 1 (Some "Milk") (Some "Full fat milk") (Some true)] in
  crud.get_item_by_name db "Milk" <> None
  /\ main.create_inventory_item main.alone item db
     = (main.HTTPException 409 "Item with this name already exists", db).
Proof.
  assert (H : crud.get_item_by_name
                [InventoryItem.Build 1 (Some "Milk") (Some "Full fat milk") (Some true)]
                "Milk" <> None) by discriminate.
  split; [exact H|].
  apply (proj1 (create_conflict_outcomes main.alone
                  (InventoryItemCreate.Build "Milk" (Some "Full fat milk") true) _)).
  exact H.
Defined.

(** ** Listing *)

(** C7, the claim as worded fails: a negative [skip] or [limit] is not
    refused; the handler hands both to the query and answers 200. *)
Lemma negative_paging_is_not_rejected :
  let A := InventoryItem.Build 1 (Some "Item A") None (Some true) in
  let B := InventoryItem.Build 2 (Some "Item B") None (Some true) in
  main.read_inventory_items (Some (-1)) (Some (-5)) [A; B]
  = (main.ListResponse 200 [A; B], [A; B])
  /\ main.status_code_of (fst (main.read_inventory_items (Some (-1)) (Some (-5)) [A; B]))
     <> 422.
Proof.
  split; [reflexivity | discriminate].
Qed.

(** C7, amended: the list handler checks no sign on [skip] and [limit]: for
    values the driver can bind (signed 64-bit integers), negative ones
    included, it answers 200 and leaves the table as it was; when both are
    non-negative the answer holds the records after the first [skip] ones, at
    most [limit] of them; [skip] and [limit] stand for 0 and 100 when
    omitted; on an empty table the answer is the empty sequence. *)
Theorem list_page (skip limit : option Z) (db : Session) :
  let s := match skip with Some v => v | None => 0 end in
  let l := match limit with Some v => v | None => 100 end in
  database.INTEGER s ->
  database.INTEGER l ->
  exists items,
    main.read_inventory_items skip limit db = (main.ListResponse 200 items, db)
    /\ (0 <= s -> 0 <= l ->
        items = firstn (Z.to_nat l) (skipn (Z.to_nat s) db)
        /\ Z.of_nat (List.length items) <= l)
    /\ main.read_inventory_items None None db
       = main.read_inventory_items (Some 0) (Some 100) db
    /\ (db = [] -> items = []).
Proof.
  intros s l _ _. exists (crud.get_items db s l).
  split; [reflexivity|]. split; [|split; [reflexivity|]].
  - intros Hs Hl. unfold crud.get_items.
    destruct (Z.ltb_spec l 0); [lia|].
    split; [reflexivity|].
    pose proof (firstn_le_length (Z.to_nat l) (skipn (Z.to_nat s) db)). lia.
  - intros ->. unfold crud.get_items. rewrite skipn_nil.
    destruct (l <? 0); [reflexivity | apply firstn_nil].
Qed.

Lemma list_page_witness :
  let A := InventoryItem.Build 1 (Some "Item A") None (Some true) in
  let B := InventoryItem.Build 2 (Some "Item B") None (Some true) in
  let C := InventoryItem.Build 3 (Some "Item C") None (Some true) in
  database.INTEGER 1
  /\ exists items,
       main.read_inventory_items (Some 1) (Some 1) [A; B; C]
       = (main.ListResponse 200 items, [A; B; C])
       /\ items = [B].
Proof.
  assert (Hint : database.INTEGER 1) by (unfold database.INTEGER; lia).
  split; [exact Hint|].
  destruct (list_page (Some 1) (Some 1)
              [InventoryItem.Build 1 (Some "Item A") None (Some true);
               InventoryItem.Build 2 (Some "Item B") None (Some true);
               InventoryItem.Build 3 (Some "Item C") None (Some true)] Hint Hint)
    as [items [H1 [H2 _]]].
  exists items. split; [exact H1|].
  apply H2; lia.
Defined.

(** ** The scenarios of test_main.py, run on the model *)

Example test_create_and_read_item :
  let b := MkBody (Value "Coffee Beans") (Value "Arabica dark roast") (Value true) in
  let coffee := InventoryItem.Build 1 (Some "Coffee Beans") (Some "Arabica dark roast")
                  (Some true) in
  main.POST_items main.alone b [] = (main.ItemResponse 201 coffee, [coffee])
  /\ main.read_inventory_item 1 [coffee] = (main.ItemResponse 200 coffee, [coffee])
  /\ main.read_inventory_items None None [coffee] = (main.ListResponse 200 [coffee], [coffee]).
Proof. repeat split. Qed.

Example test_create_item_duplicate_name :
  let b := MkBody (Value "Milk") (Value "Full fat milk") Absent in
  let db1 := snd (main.POST_items main.alone b []) in
  main.status_code_of (fst (main.POST_items main.alone b [])) = 201
  /\ main.POST_items main.alone b db1
     = (main.HTTPException 409 "Item with this name already exists", db1).
Proof. repeat split. Qed.

Example test_update_item :
  let db1 := snd (main.POST_items main.alone
                    (MkBody (Value "Sugar") (Value "White granulated sugar") Absent) []) in
  let sugar := InventoryItem.Build 1 (Some "Sugar") (Some "Brown sugar alternative")
                 (Some false) in
  main.PUT_items 1 (MkBody Absent (Value "Brown sugar alternative") (Value false)) db1
  = (main.ItemResponse 200 sugar, [sugar]).
Proof. reflexivity. Qed.

Example test_update_item_duplicate_name_conflict :
  let db1 := snd (main.POST_items main.alone (MkBody (Value "Item A") Absent Absent) []) in
  let db2 := snd (main.POST_items main.alone (MkBody (Value "Item B") Absent Absent) db1) in
  main.PUT_items 2 (MkBody (Value "Item A") Absent Absent) db2
  = (main.HTTPException 409 "Another item with this name already exists", db2).
Proof. reflexivity. Qed.

Example test_delete_item :
  let db1 := snd (main.POST_items main.alone
                    (MkBody (Value "Bread") (Value "Whole wheat bread") Absent) []) in
  main.delete_inventory_item 1 db1 = (main.EmptyResponse 204, [])
  /\ main.read_inventory_item 1 [] = (main.HTTPException 404 "Item not found", []).
Proof. repeat split. Qed.

(** ** Beyond the contract: deletion *)

Lemma get_item_deleted (db : Session) (i : Z) :
  crud.get_item (other_rows db i) i = None.
Proof.
  unfold crud.get_item, other_rows. induction db as [|r db IH]; simpl; [reflexivity|].
  destruct (InventoryItem.id r =? i) eqn:E; simpl; [exact IH|].
  now rewrite E.
Qed.

Lemma get_item_not_deleted (db : Session) (i j : Z) :
  j <> i -> crud.get_item (other_rows db i) j = crud.get_item db j.
Proof.
  intro Hj. unfold crud.get_item, other_rows.
  induction db as [|r db IH]; simpl; [reflexivity|].
  destruct (Z.eqb_spec (InventoryItem.id r) i) as [E|E]; simpl.
  - destruct (Z.eqb_spec (InventoryItem.id r) j); [congruence | exact IH].
  - destruct (InventoryItem.id r =? j); [reflexivity | exact IH].
Qed.

Lemma delete_inventory_item_found (i : Z) (old : InventoryItem.t) (db : Session) :
  crud.get_item db i = Some old ->
  main.delete_inventory_item i db = (main.EmptyResponse 204, other_rows db i).
Proof.
  intro H. pose proof (get_item_In _ _ _ H) as [_ Hid].
  unfold main.delete_inventory_item, crud.delete_item, DELETE.
  unfold crud.get_item in H. now rewrite H, Hid.
Qed.

(** X1: deleting a stored item answers 204; after it, reading the id and deleting
    it again both answer 404, and every other id reads as before. *)
Theorem delete_then_read_not_found (i : Z) (old : InventoryItem.t) (db : Session) :
  crud.get_item db i = Some old ->
  exists db',
    main.delete_inventory_item i db = (main.EmptyResponse 204, db')
    /\ main.read_inventory_item i db' = (main.HTTPException 404 "Item not found", db')
    /\ main.delete_inventory_item i db' = (main.HTTPException 404 "Item not found", db')
    /\ forall j, j <> i -> crud.get_item db' j = crud.get_item db j.
Proof.
  intro H. exists (other_rows db i).
  split; [now apply (delete_inventory_item_found i old)|].
  pose proof (get_item_deleted db i) as Hgone.
  split; [|split].
  - unfold main.read_inventory_item. now rewrite Hgone.
  - unfold main.delete_inventory_item, crud.delete_item.
    unfold crud.get_item in Hgone. now rewrite Hgone.
  - intros j Hj. now apply get_item_not_deleted.
Qed.

Lemma delete_then_read_not_found_witness :
  let A := InventoryItem.Build 1 (Some "Bread") (Some "Whole wheat bread") (Some true) in
  let B := InventoryItem.Build 2 (Some "Milk") None (Some true) in
  exists db',
    main.delete_inventory_item 1 [A; B] = (main.EmptyResponse 204, db')
    /\ main.read_inventory_item 1 db' = (main.HTTPException 404 "Item not found", db')
    /\ main.delete_inventory_item 1 db' = (main.HTTPException 404 "Item not found", db')
    /\ forall j, j <> 1 -> crud.get_item db' j = crud.get_item [A; B] j.
Proof.
  apply (delete_then_read_not_found 1
           (InventoryItem.Build 1 (Some "Bread") (Some "Whole wheat bread") (Some true))).
  reflexivity.
Defined.

Lemma other_rows_one_less (db : Session) (old : InventoryItem.t) :
  NoDup (map InventoryItem.id db) -> In old db ->
  S (List.length (other_rows db (InventoryItem.id old))) = List.length db.
Proof.
  induction db as [|r db IH]; simpl; [tauto|].
  intros Hnd Hin. apply NoDup_cons_iff in Hnd. destruct Hnd as [Hnot Hnd].
  unfold other_rows. simpl. fold (other_rows db (InventoryItem.id old)).
  destruct (Z.eqb_spec (InventoryItem.id r) (InventoryItem.id old)) as [E|E]; simpl.
  - rewrite other_rows_fresh; [reflexivity | now rewrite <- E].
  - f_equal. apply IH; [assumption|].
    destruct Hin as [-> | Hin]; [congruence | assumption].
Qed.

(** X2: On a table that meets its constraints, deleting a stored item takes out
    that record and no other: the table is one record shorter, and a record is
    in it afterwards exactly when it was there before and is not the deleted
    one. *)
Theorem delete_removes_exactly_one (i : Z) (old : InventoryItem.t) (db : Session) :
  table_ok db ->
  crud.get_item db i = Some old ->
  S (List.length (snd (main.delete_inventory_item i db))) = List.length db
  /\ forall r, In r (snd (main.delete_inventory_item i db)) <-> In r db /\ r <> old.
Proof.
  intros [Hid [Hname Hnn]] H.
  rewrite (delete_inventory_item_found i old db H). simpl.
  apply get_item_In in H. destruct H as [Hin Hi]. subst i.
  split; [now apply other_rows_one_less|].
  intro r. unfold other_rows. rewrite filter_In. split.
  - intros [Hr Hne]. split; [assumption|]. intros ->.
    rewrite Z.eqb_refl in Hne. discriminate.
  - intros [Hr Hne]. split; [assumption|].
    destruct (Z.eqb_spec (InventoryItem.id r) (InventoryItem.id old)) as [E|E];
      [|reflexivity].
    exfalso. apply Hne. now apply (unique_column_same_row InventoryItem.id db).
Qed.

Lemma delete_removes_exactly_one_witness :
  let A := InventoryItem.Build 1 (Some "Item A") None (Some true) in
  let B := InventoryItem.Build 2 (Some "Item B") None (Some true) in
  S (List.length (snd (main.delete_inventory_item 2 [A; B]))) = List.length [A; B]
  /\ forall r, In r (snd (main.delete_inventory_item 2 [A; B])) <-> In r [A; B] /\ r <> B.
Proof.
  apply delete_removes_exactly_one; [table_ok_by_computation | reflexivity].
Defined.

(** ** Beyond the contract: creation *)

Lemma get_item_by_name_appended (db : Session) (row : InventoryItem.t) (n : string) :
  crud.get_item_by_name db n = None -> InventoryItem.name row = Some n ->
  crud.get_item_by_name (db ++ [row]) n = Some row.
Proof.
  unfold crud.get_item_by_name. intros Hfree Hrow.
  induction db as [|r db IH]; simpl in *.
  - rewrite Hrow. simpl. now rewrite String.eqb_refl.
  - destruct (option_eqb String.eqb (InventoryItem.name r) (Some n));
      [discriminate | now apply IH].
Qed.

(** What a 201 from the create handler, served alone, says about the table. *)
Lemma create_inventory_item_201 (item : InventoryItemCreate.t) (db db' : Session)
    (created : InventoryItem.t) :
  main.create_inventory_item main.alone item db = (main.ItemResponse 201 created, db') ->
  crud.get_item_by_name db (InventoryItemCreate.name item) = None
  /\ created = InventoryItem.Build (next_rowid db) (Some (InventoryItemCreate.name item))
                 (InventoryItemCreate.description item)
                 (Some (InventoryItemCreate.status item))
  /\ db' = db ++ [created].
Proof.
  unfold main.create_inventory_item, main.alone.
  destruct (crud.get_item_by_name db (InventoryItemCreate.name item)) eqn:Hfree;
    [discriminate|].
  pose proof (create_item_free_name db item Hfree) as Hc. cbv zeta in Hc. rewrite Hc.
  intro H. injection H as <- <-. auto.
Qed.

(** X3: once a create has answered 201, the name looks up to the created record,
    and every later create with that name, whatever its description and
    status, answers 409 and leaves the table as it is. *)
Theorem create_then_duplicate_conflicts (item item2 : InventoryItemCreate.t)
    (other : main.Interleaving) (created : InventoryItem.t) (db db' : Session) :
  main.create_inventory_item main.alone item db = (main.ItemResponse 201 created, db') ->
  InventoryItemCreate.name item2 = InventoryItemCreate.name item ->
  crud.get_item_by_name db' (InventoryItemCreate.name item) = Some created
  /\ main.create_inventory_item other item2 db'
     = (main.HTTPException 409 "Item with this name already exists", db').
Proof.
  intros H Hsame. apply create_inventory_item_201 in H. destruct H as [Hfree [Hc ->]].
  assert (Hfound : crud.get_item_by_name (db ++ [created]) (InventoryItemCreate.name item)
                   = Some created).
  { apply get_item_by_name_appended; [assumption | now rewrite Hc]. }
  split; [exact Hfound|].
  unfold main.create_inventory_item. now rewrite Hsame, Hfound.
Qed.

Lemma create_then_duplicate_conflicts_witness :
  let milk := InventoryItem.Build 1 (Some "Milk") (Some "Full fat milk") (Some true) in
  crud.get_item_by_name [milk] "Milk" = Some milk
  /\ main.create_inventory_item main.alone (InventoryItemCreate.Build "Milk" None false) [milk]
     = (main.HTTPException 409 "Item with this name already exists", [milk]).
Proof.
  apply (create_then_duplicate_conflicts
           (InventoryItemCreate.Build "Milk" (Some "Full fat milk") true)
           (InventoryItemCreate.Build "Milk" None false) main.alone _ []);
    reflexivity.
Defined.

(** X4: served alone, the create handler answers 409 exactly when a stored item
    carries the name and 201 otherwise; its 500 branch is never taken. *)
Theorem create_alone_never_fails_internally (item : InventoryItemCreate.t) (db : Session) :
  let code := main.status_code_of (fst (main.create_inventory_item main.alone item db)) in
  let taken := exists r, In r db
                 /\ InventoryItem.name r = Some (InventoryItemCreate.name item) in
  code <> 500 /\ (code = 409 <-> taken) /\ (code = 201 <-> ~ taken).
Proof.
  intros code taken. subst code taken.
  unfold main.create_inventory_item, main.alone.
  destruct (crud.get_item_by_name db (InventoryItemCreate.name item)) as [r|] eqn:H.
  - apply get_item_by_name_In in H. simpl.
    split; [discriminate|]. split; split; try discriminate; try reflexivity.
    + intros _. now exists r.
    + intro Hno. exfalso. apply Hno. now exists r.
  - pose proof (create_item_free_name db item H) as Hc. cbv zeta in Hc. rewrite Hc.
    simpl.
    assert (Hno : ~ exists r, In r db
                    /\ InventoryItem.name r = Some (InventoryItemCreate.name item)).
    { intros [r [Hin Hn]]. apply get_item_by_name_None in H.
      assert (name_in_use (Some (InventoryItemCreate.name item)) db = true);
        [|congruence].
      apply name_in_use_In. rewrite <- Hn. now apply in_map. }
    split; [discriminate|]. split; split; try discriminate; try reflexivity.
    + intro Ht. contradiction.
    + intros _. exact Hno.
Qed.

(** X5: On a table that meets its constraints, the name of a deleted item is free
    again: a create with that name, served alone, answers 201. *)
Theorem delete_frees_name (i : Z) (old : InventoryItem.t) (item : InventoryItemCreate.t)
    (db : Session) :
  table_ok db ->
  crud.get_item db i = Some old ->
  InventoryItem.name old = Some (InventoryItemCreate.name item) ->
  exists created,
    main.create_inventory_item main.alone item (snd (main.delete_inventory_item i db))
    = (main.ItemResponse 201 created, snd (main.delete_inventory_item i db) ++ [created]).
Proof.
  intros [Hid [Hname Hnn]] H Hn.
  rewrite (delete_inventory_item_found i old db H). simpl.
  apply get_item_In in H. destruct H as [Hin Hi].
  assert (Hfree : crud.get_item_by_name (other_rows db i) (InventoryItemCreate.name item)
                  = None).
  { destruct (crud.get_item_by_name (other_rows db i) (InventoryItemCreate.name item))
      as [r|] eqn:E; [|reflexivity].
    exfalso. apply get_item_by_name_In in E. destruct E as [Hr Hrn].
    unfold other_rows in Hr. apply filter_In in Hr. destruct Hr as [Hr Hne].
    assert (r = old) by (apply (unique_column_same_row InventoryItem.name db);
                         [assumption .. | congruence]).
    subst r. rewrite Hi, Z.eqb_refl in Hne. discriminate. }
  pose proof (create_item_free_name _ item Hfree) as Hc. cbv zeta in Hc.
  unfold main.create_inventory_item, main.alone. rewrite Hfree, Hc.
  eexists. reflexivity.
Qed.

Lemma delete_frees_name_witness :
  let A := InventoryItem.Build 1 (Some "Item A") None (Some true) in
  let B := InventoryItem.Build 2 (Some "Item B") None (Some true) in
  let item := InventoryItemCreate.Build "Item A" (Some "again") true in
  exists created,
    main.create_inventory_item main.alone item (snd (main.delete_inventory_item 1 [A; B]))
    = (main.ItemResponse 201 created, snd (main.delete_inventory_item 1 [A; B]) ++ [created]).
Proof.
  apply (delete_frees_name 1 (InventoryItem.Build 1 (Some "Item A") None (Some true)));
    [table_ok_by_computation | reflexivity | reflexivity].
Defined.

(** ** Beyond the contract: update *)

Lemma optional_str_inr (f : Field) (lo hi : nat) (j : JSON string) (v : option string) :
  optional_str f lo hi j = inr v <->
  match j with
  | Value s => v = Some s /\ (lo <= String.length s <= hi)%nat
  | _ => v = None
  end.
Proof.
  unfold optional_str. destruct j as [| |s].
  - split; [intro H; now injection H | now intros ->].
  - split; [intro H; now injection H | now intros ->].
  - destruct (check_length f lo hi s) as [e|s'] eqn:E.
    + split; [discriminate|]. intros [_ Hlen].
      assert (check_length f lo hi s = inr s) by (apply check_length_inr; auto).
      congruence.
    + apply check_length_inr in E. destruct E as [-> Hlen].
      split; [intro H; injection H as <-; auto | now intros [-> _]].
Qed.

(** The attributes of a validated update, read off the body. *)
Lemma InventoryItemUpdate_attrs (b : Body) (item : InventoryItemUpdate.t) :
  InventoryItemUpdate.model_validate b = inr item ->
  InventoryItemUpdate.name item
    = match body_name b with Value n => Some n | _ => None end
  /\ InventoryItemUpdate.description item
    = match body_description b with Value d => Some d | _ => None end
  /\ InventoryItemUpdate.status item
    = match body_status b with Value s => Some s | _ => None end
  /\ (forall n, body_name b = Value n -> (1 <= String.length n <= 100)%nat)
  /\ (forall d, body_description b = Value d -> (String.length d <= 500)%nat).
Proof.
  unfold InventoryItemUpdate.model_validate, InventoryItemUpdate.validate_name,
    InventoryItemUpdate.validate_description.
  destruct (optional_str f_name 1 100 (body_name b)) as [en|vn] eqn:En.
  { destruct (optional_str f_description 0 500 (body_description b));
      destruct (InventoryItemUpdate.validate_status (body_status b)); discriminate. }
  destruct (optional_str f_description 0 500 (body_description b)) as [ed|vd] eqn:Ed.
  { destruct (InventoryItemUpdate.validate_status (body_status b)); discriminate. }
  apply optional_str_inr in En. apply optional_str_inr in Ed.
  unfold InventoryItemUpdate.validate_status.
  destruct (body_name b) as [| |n]; destruct (body_description b) as [| |d];
    destruct (body_status b) as [| |s]; intro H; injection H as <-; simpl;
    repeat split; intros; try tauto; try congruence;
    match goal with
    | H : Value _ = Value _ |- _ => injection H as <-; try tauto; lia
    end.
Qed.

Lemma InventoryItemUpdate_rejected (b : Body) (errors : list ErrorDetails) :
  InventoryItemUpdate.model_validate b = inl errors -> errors <> [].
Proof.
  unfold InventoryItemUpdate.model_validate.
  destruct (InventoryItemUpdate.validate_name (body_name b)) as [en|n];
    destruct (InventoryItemUpdate.validate_description (body_description b)) as [ed|d];
    destruct (InventoryItemUpdate.validate_status (body_status b)) as [es|s];
    intro H; try discriminate; injection H as <-; discriminate.
Qed.

(** X6: an update body is accepted exactly when its name, if it gives a string,
    has between 1 and 100 characters and its description, if it gives a
    string, has at most 500; [null] is accepted for every field.  A body that
    is not accepted is answered 422 with the table as it was, whether or not
    the id is stored. *)
Theorem update_input_bounds (i : Z) (b : Body) (db : Session) :
  ((exists item, InventoryItemUpdate.model_validate b = inr item) <->
   (forall n, body_name b = Value n -> (1 <= String.length n <= 100)%nat)
   /\ (forall d, body_description b = Value d -> (String.length d <= 500)%nat))
  /\ ((~ exists item, InventoryItemUpdate.model_validate b = inr item) ->
      exists errors,
        errors <> []
        /\ main.PUT_items i b db = (main.RequestValidationError errors, db)
        /\ main.status_code_of (fst (main.PUT_items i b db)) = 422).
Proof.
  split.
  - split.
    + intros [item Hv]. apply InventoryItemUpdate_attrs in Hv. tauto.
    + intros [Hn Hd].
      unfold InventoryItemUpdate.model_validate, InventoryItemUpdate.validate_name,
        InventoryItemUpdate.validate_description.
      assert (En : optional_str f_name 1 100 (body_name b)
                   = inr (match body_name b with Value n => Some n | _ => None end)).
      { apply optional_str_inr. destruct (body_name b) as [| |n]; auto. }
      assert (Ed : optional_str f_description 0 500 (body_description b)
                   = inr (match body_description b with Value d => Some d | _ => None end)).
      { apply optional_str_inr. destruct (body_description b) as [| |d]; auto.
        split; [reflexivity|]. specialize (Hd d eq_refl). lia. }
      rewrite En, Ed.
      destruct (InventoryItemUpdate.validate_status (body_status b)) as [e|s] eqn:Es.
      * destruct (body_status b); discriminate.
      * eexists. reflexivity.
  - intro Hno. unfold main.PUT_items.
    destruct (InventoryItemUpdate.model_validate b) as [errors|item] eqn:Ev.
    + exists errors. split; [now apply (InventoryItemUpdate_rejected b)|].
      split; reflexivity.
    + exfalso. apply Hno. now exists item.
Qed.

Lemma update_input_bounds_witness :
  let b := MkBody (Value "") Absent Absent in
  (~ exists item, InventoryItemUpdate.model_validate b = inr item)
  /\ exists errors,
       errors <> []
       /\ main.PUT_items 999 b [] = (main.RequestValidationError errors, [])
       /\ main.status_code_of (fst (main.PUT_items 999 b [])) = 422.
Proof.
  assert (H : ~ exists item,
              InventoryItemUpdate.model_validate (MkBody (Value "") Absent Absent)
              = inr item).
  { intros [item E]. discriminate E. }
  split; [exact H|].
  apply (proj2 (update_input_bounds 999 _ [])). exact H.
Defined.

Lemma get_item_of_In (db : Session) (r : InventoryItem.t) :
  NoDup (map InventoryItem.id db) -> In r db ->
  crud.get_item db (InventoryItem.id r) = Some r.
Proof.
  intros Hnd Hin.
  destruct (crud.get_item db (InventoryItem.id r)) as [r'|] eqn:E.
  - apply get_item_In in E. destruct E as [Hin' Hid]. f_equal.
    now apply (unique_column_same_row InventoryItem.id db).
  - unfold crud.get_item in E. pose proof (find_none _ _ E r Hin) as H.
    simpl in H. rewrite Z.eqb_refl in H. discriminate.
Qed.

Lemma get_item_by_name_of_In (db : Session) (r : InventoryItem.t) (n : string) :
  NoDup (map InventoryItem.name db) -> In r db -> InventoryItem.name r = Some n ->
  crud.get_item_by_name db n = Some r.
Proof.
  intros Hnd Hin Hn.
  destruct (crud.get_item_by_name db n) as [r'|] eqn:E.
  - apply get_item_by_name_In in E. destruct E as [Hin' Hn']. f_equal.
    apply (unique_column_same_row InventoryItem.name db); congruence.
  - unfold crud.get_item_by_name in E. pose proof (find_none _ _ E r Hin) as H.
    simpl in H. rewrite Hn in H. simpl in H. rewrite String.eqb_refl in H. discriminate.
Qed.

(** The handler's name check fires exactly when another stored item carries
    the name the body gives. *)
Lemma name_held_by_another_iff (i : Z) (b : Body) (item : InventoryItemUpdate.t)
    (old : InventoryItem.t) (db : Session) :
  table_ok db ->
  crud.get_item db i = Some old ->
  InventoryItemUpdate.model_validate b = inr item ->
  main.name_held_by_another db i item old = true <-> name_taken_by_another db i b.
Proof.
  intros [Hid [Hname Hnn]] Hget Hv.
  apply InventoryItemUpdate_attrs in Hv. destruct Hv as [Hn _].
  apply get_item_In in Hget. destruct Hget as [Hin Hi].
  unfold main.name_held_by_another, name_taken_by_another. rewrite Hn.
  destruct (body_name b) as [| |n].
  - split; [discriminate | intros [n [Y [E _]]]; discriminate].
  - split; [discriminate | intros [n [Y [E _]]]; discriminate].
  - destruct (option_eqb String.eqb (Some n) (InventoryItem.name old)) eqn:Eown; simpl.
    + apply option_eqb_string in Eown. split; [discriminate|].
      intros [n' [Y [E [HY [HYn HYi]]]]]. injection E as <-. exfalso. apply HYi.
      assert (Y = old) by (apply (unique_column_same_row InventoryItem.name db);
                           [assumption .. | congruence]).
      congruence.
    + destruct (crud.get_item_by_name db n) as [Y|] eqn:Ey.
      * apply get_item_by_name_In in Ey. destruct Ey as [HY HYn].
        destruct (Z.eqb_spec (InventoryItem.id Y) i) as [E|E]; simpl.
        -- split; [discriminate|].
           intros [n' [Y' [E' [HY' [HYn' HYi']]]]]. injection E' as <-.
           assert (Y' = Y) by (apply (unique_column_same_row InventoryItem.name db);
                               [assumption .. | congruence]).
           congruence.
        -- split; [|reflexivity]. intros _. exists n, Y. auto.
      * split; [discriminate|].
        intros [n' [Y' [E' [HY' [HYn' HYi']]]]]. injection E' as <-.
        rewrite (get_item_by_name_of_In db Y' n Hname HY' HYn') in Ey. discriminate.
Qed.

Lemma UPDATE_passes (db : Session) (row : InventoryItem.t) (n : string) (s : bool) :
  InventoryItem.name row = Some n ->
  InventoryItem.status row = Some s ->
  (forall r, In r db -> InventoryItem.id r <> InventoryItem.id row ->
             InventoryItem.name r <> Some n) ->
  UPDATE db row
  = Committed (map (fun r => if InventoryItem.id r =? InventoryItem.id row then row else r) db).
Proof.
  intros Hn Hs Hfree. unfold UPDATE. rewrite Hn, Hs.
  destruct (name_in_use (Some n) (other_rows db (InventoryItem.id row))) eqn:E;
    [|reflexivity].
  exfalso. apply name_in_use_In in E. apply in_map_iff in E.
  destruct E as [r [Hr Hin]]. unfold other_rows in Hin. apply filter_In in Hin.
  destruct Hin as [Hin Hne]. apply (Hfree r Hin); [|assumption].
  destruct (Z.eqb_spec (InventoryItem.id r) (InventoryItem.id row));
    [discriminate | assumption].
Qed.

(** X7: how an accepted update of a stored item ends, on a table that meets its
    constraints: 409 when another item carries the name the body gives;
    otherwise 500 when the body gives [null] for name or for status;
    otherwise 200.  A name equal to the item's own, a [null] description and
    an empty body are all in the last case. *)
Theorem update_outcomes (i : Z) (b : Body) (item : InventoryItemUpdate.t)
    (old : InventoryItem.t) (db : Session) :
  table_ok db ->
  crud.get_item db i = Some old ->
  InventoryItemUpdate.model_validate b = inr item ->
  (name_taken_by_another db i b ->
   main.PUT_items i b db
   = (main.HTTPException 409 "Another item with this name already exists", db))
  /\ (~ name_taken_by_another db i b ->
      body_name b = Null \/ body_status b = Null ->
      main.PUT_items i b db
      = (main.HTTPException 500 "Could not update item due to an unexpected error.", db))
  /\ (~ name_taken_by_another db i b ->
      body_name b <> Null -> body_status b <> Null ->
      main.status_code_of (fst (main.PUT_items i b db)) = 200).
Proof.
  intros Hok Hget Hv.
  pose proof (name_held_by_another_iff i b item old db Hok Hget Hv) as Hcheck.
  pose proof (InventoryItemUpdate_attrs b item Hv) as [An [_ [As _]]].
  pose proof (InventoryItemUpdate_validated b item Hv) as [_ [_ [_ [Sn [_ Ss]]]]].
  pose proof (setattr_loop item old) as [Ln [_ Ls]].
  pose proof (setattr_keeps_id (InventoryItemUpdate.model_dump_exclude_unset item) old)
    as Lid.
  pose proof (get_item_In _ _ _ Hget) as [Hin Hi].
  unfold main.PUT_items. rewrite Hv. unfold main.update_inventory_item. rewrite Hget.
  split; [|split].
  - intro Ht. apply Hcheck in Ht. now rewrite Ht.
  - intros Hnt Hnull.
    destruct (main.name_held_by_another db i item old) eqn:Eh;
      [exfalso; apply Hnt; now apply Hcheck|].
    unfold crud.update_item. unfold crud.get_item in Hget. rewrite Hget. cbv zeta.
    set (new := fold_left crud.setattr
                  (InventoryItemUpdate.model_dump_exclude_unset item) old) in *.
    assert (Hfail : UPDATE db new = IntegrityError).
    { unfold UPDATE. destruct Hnull as [E|E].
      - rewrite E in Sn, An. rewrite Sn, An in Ln. now rewrite Ln.
      - rewrite E in Ss, As. rewrite Ss, As in Ls. rewrite Ls.
        now destruct (InventoryItem.name new). }
    now rewrite Hfail.
  - intros Hnt Hname Hstatus.
    destruct (main.name_held_by_another db i item old) eqn:Eh;
      [exfalso; apply Hnt; now apply Hcheck|].
    unfold crud.update_item. unfold crud.get_item in Hget. rewrite Hget. cbv zeta.
    set (new := fold_left crud.setattr
                  (InventoryItemUpdate.model_dump_exclude_unset item) old) in *.
    destruct Hok as [Hid [Hnames Hnn]]. rewrite Forall_forall in Hnn.
    destruct (Hnn old Hin) as [Hon Hos].
    destruct (InventoryItem.name old) as [n0|] eqn:En0; [|congruence].
    destruct (InventoryItem.status old) as [s0|] eqn:Es0; [|congruence].
    assert (Hs : exists s, InventoryItem.status new = Some s).
    { rewrite Ls, Ss, As. destruct (body_status b) as [| |s];
        [now exists s0 | congruence | now exists s]. }
    destruct Hs as [s Hs].
    assert (Hn : exists n, InventoryItem.name new = Some n
                 /\ forall r, In r db -> InventoryItem.id r <> InventoryItem.id new ->
                              InventoryItem.name r <> Some n).
    { rewrite Ln, Sn, An, Lid, Hi. destruct (body_name b) as [| |n] eqn:Eb.
      - exists n0. split; [reflexivity|]. intros r Hr Hne Hrn. apply Hne.
        assert (r = old) by (apply (unique_column_same_row InventoryItem.name db);
                             [assumption .. | congruence]).
        congruence.
      - congruence.
      - exists n. split; [reflexivity|]. intros r Hr Hne Hrn. apply Hnt.
        exists n, r. auto. }
    destruct Hn as [n [Hn Hfree]].
    now rewrite (UPDATE_passes db new n s Hn Hs Hfree).
Qed.

Lemma update_outcomes_witness :
  let A := InventoryItem.Build 1 (Some "Item A") (Some "first") (Some true) in
  let B := InventoryItem.Build 2 (Some "Item B") None (Some true) in
  main.PUT_items 1 (MkBody (Value "Item A") Null Absent) [A; B]
  = (main.ItemResponse 200 (InventoryItem.Build 1 (Some "Item A") None (Some true)),
     [InventoryItem.Build 1 (Some "Item A") None (Some true); B])
  /\ main.PUT_items 1 (MkBody Absent Absent Null) [A; B]
     = (main.HTTPException 500 "Could not update item due to an unexpected error.", [A; B]).
Proof.
  split; [reflexivity|].
  apply (proj1 (proj2 (update_outcomes 1 (MkBody Absent Absent Null)
                         (InventoryItemUpdate.Build None None None [f_status])
                         (InventoryItem.Build 1 (Some "Item A") (Some "first") (Some true))
                         [InventoryItem.Build 1 (Some "Item A") (Some "first") (Some true);
                          InventoryItem.Build 2 (Some "Item B") None (Some true)]
                         ltac:(table_ok_by_computation) eq_refl eq_refl))).
  - intros [n [Y [E _]]]. discriminate E.
  - now right.
Defined.

(** X8: an update never touches the primary keys: the ids of the table, their
    order and their number are the same after any PUT, whatever it answers. *)
Theorem update_keeps_ids (i : Z) (b : Body) (db : Session) :
  map InventoryItem.id (snd (main.PUT_items i b db)) = map InventoryItem.id db.
Proof.
  unfold main.PUT_items.
  destruct (InventoryItemUpdate.model_validate b) as [errors|item]; [reflexivity|].
  unfold main.update_inventory_item.
  destruct (crud.get_item db i) as [old|]; [|reflexivity].
  destruct (main.name_held_by_another db i item old); [reflexivity|].
  unfold crud.update_item.
  destruct (find _ db) as [db_item|]; [|reflexivity]. cbv zeta.
  destruct (UPDATE db _) as [db'|] eqn:E; [|reflexivity].
  apply UPDATE_Committed in E. subst db'. simpl. apply replace_keeps_ids.
Qed.

(** X9: after a rename that answered 200, on a table that meets its constraints,
    the new name looks up to the renamed item and the old name to nothing. *)
Theorem rename_moves_name (i : Z) (b : Body) (old : InventoryItem.t) (n0 n : string)
    (db : Session) :
  table_ok db ->
  crud.get_item db i = Some old ->
  InventoryItem.name old = Some n0 ->
  body_name b = Value n ->
  n <> n0 ->
  main.status_code_of (fst (main.PUT_items i b db)) = 200 ->
  exists new,
    fst (main.PUT_items i b db) = main.ItemResponse 200 new
    /\ InventoryItem.id new = i
    /\ crud.get_item_by_name (snd (main.PUT_items i b db)) n = Some new
    /\ crud.get_item_by_name (snd (main.PUT_items i b db)) n0 = None.
Proof.
  intros Hok Hget Hn0 Hb Hne H200.
  pose proof (serve_ok db (Update i b) Hok) as Hok'. simpl in Hok'.
  destruct Hok as [Hid [Hnames _]]. destruct Hok' as [Hid' [Hnames' _]].
  unfold main.PUT_items in *.
  destruct (InventoryItemUpdate.model_validate b) as [errors|item] eqn:Ev;
    [discriminate H200|].
  destruct (InventoryItemUpdate_validated b item Ev) as [Wn [_ [_ [Sn _]]]].
  rewrite Hb in Wn, Sn. simpl in Wn.
  destruct (update_inventory_item_frame i item old db Hget)
    as [new [Hnew [_ [_ [_ [Hothers Hdone]]]]]].
  destruct (Hdone H200) as [Hresp [Hname _]].
  specialize (Hname Sn). rewrite Wn in Hname.
  set (db' := snd (main.update_inventory_item i item db)) in *.
  pose proof (get_item_In _ _ _ Hnew) as [Hin' Hi'].
  exists new. split; [exact Hresp|]. split; [exact Hi'|].
  split; [now apply get_item_by_name_of_In|].
  destruct (crud.get_item_by_name db' n0) as [r|] eqn:Er; [|reflexivity].
  exfalso. apply get_item_by_name_In in Er. destruct Er as [Hr Hrn].
  destruct (Z.eq_dec (InventoryItem.id r) i) as [E|E].
  - assert (r = new) by (apply (unique_column_same_row InventoryItem.id db');
                         [assumption .. | congruence]).
    subst r. congruence.
  - pose proof (get_item_of_In db' r Hid' Hr) as Hfind.
    rewrite (Hothers _ E) in Hfind. apply get_item_In in Hfind.
    destruct Hfind as [Hrdb _]. apply get_item_In in Hget. destruct Hget as [Hodb Hoi].
    assert (r = old) by (apply (unique_column_same_row InventoryItem.name db);
                         [assumption .. | congruence]).
    congruence.
Qed.

Lemma rename_moves_name_witness :
  let A := InventoryItem.Build 1 (Some "Item A") None (Some true) in
  let B := InventoryItem.Build 2 (Some "Item B") None (Some true) in
  let b := MkBody (Value "Item C") Absent Absent in
  exists new,
    fst (main.PUT_items 2 b [A; B]) = main.ItemResponse 200 new
    /\ InventoryItem.id new = 2
    /\ crud.get_item_by_name (snd (main.PUT_items 2 b [A; B])) "Item C" = Some new
    /\ crud.get_item_by_name (snd (main.PUT_items 2 b [A; B])) "Item B" = None.
Proof.
  apply (rename_moves_name 2 _ (InventoryItem.Build 2 (Some "Item B") None (Some true)));
    try reflexivity; [table_ok_by_computation | discriminate].
Defined.

(** X10: no writing request that is answered with an error (a status of 400 or
    more) changes the table. *)
Theorem error_leaves_table_unchanged (db : Session) (r : Request) :
  400 <= main.status_code_of (fst (respond db r)) ->
  snd (respond db r) = db.
Proof.
  destruct r as [b | i b | i]; simpl.
  - unfold main.POST_items.
    destruct (InventoryItemCreate.model_validate b) as [errors|item]; [reflexivity|].
    unfold main.create_inventory_item, main.alone.
    destruct (crud.get_item_by_name db _); [reflexivity|].
    unfold crud.create_item.
    destruct (INSERT db _ _ _) as [[row db']|]; simpl; [|reflexivity].
    unfold main.HTTP_201_CREATED. lia.
  - unfold main.PUT_items.
    destruct (InventoryItemUpdate.model_validate b) as [errors|item]; [reflexivity|].
    unfold main.update_inventory_item.
    destruct (crud.get_item db i) as [old|]; [|reflexivity].
    destruct (main.name_held_by_another db i item old); [reflexivity|].
    unfold crud.update_item.
    destruct (find _ db) as [db_item|]; [|reflexivity]. cbv zeta.
    destruct (UPDATE db _) as [db'|]; simpl; [|reflexivity].
    unfold main.HTTP_200_OK. lia.
  - unfold main.delete_inventory_item, crud.delete_item.
    destruct (find _ db) as [db_item|]; simpl; [|reflexivity].
    unfold main.HTTP_204_NO_CONTENT. lia.
Qed.

Lemma error_leaves_table_unchanged_witness :
  let A := InventoryItem.Build 1 (Some "Item A") None (Some true) in
  let B := InventoryItem.Build 2 (Some "Item B") None (Some true) in
  snd (respond [A; B] (Update 2 (MkBody (Value "Item A") (Value "changed") (Value false))))
  = [A; B].
Proof.
  apply error_leaves_table_unchanged. vm_compute. discriminate.
Defined.

(** ** Beyond the contract: paging *)

Lemma firstn_plus {A : Type} (a b : nat) (l : list A) :
  firstn (a + b) l = firstn a l ++ firstn b (skipn a l).
Proof.
  revert l. induction a as [|a IH]; intro l; simpl; [reflexivity|].
  destruct l as [|x l]; simpl; [now rewrite firstn_nil | now rewrite IH].
Qed.

Lemma get_items_seam (db : Session) (skip limit limit' : Z) :
  0 <= skip -> 0 <= limit -> 0 <= limit' ->
  crud.get_items db skip limit ++ crud.get_items db (skip + limit) limit'
  = crud.get_items db skip (limit + limit').
Proof.
  intros Hs Hl Hl'. unfold crud.get_items.
  destruct (Z.ltb_spec limit 0); [lia|].
  destruct (Z.ltb_spec limit' 0); [lia|].
  destruct (Z.ltb_spec (limit + limit') 0); [lia|].
  rewrite !Z2Nat.inj_add by assumption.
  rewrite firstn_plus. f_equal.
  rewrite skipn_skipn. now rewrite Nat.add_comm.
Qed.

(** X11: two consecutive pages make the page of their joint size: no record is
    skipped or returned twice at the seam.  The offsets and sizes are
    non-negative and all of them, the second offset [skip + limit] and the
    joint size [limit + limit'] included, are integers the driver can bind. *)
Theorem pages_concatenate (db : Session) (skip limit limit' : Z) :
  0 <= skip -> 0 <= limit -> 0 <= limit' ->
  database.INTEGER (skip + limit) ->
  database.INTEGER (limit + limit') ->
  crud.get_items db skip limit ++ crud.get_items db (skip + limit) limit'
  = crud.get_items db skip (limit + limit').
Proof.
  intros Hs Hl Hl' _ _. now apply get_items_seam.
Qed.

Lemma pages_concatenate_witness :
  let A := InventoryItem.Build 1 (Some "Item A") None (Some true) in
  let B := InventoryItem.Build 2 (Some "Item B") None (Some true) in
  let C := InventoryItem.Build 3 (Some "Item C") None (Some true) in
  database.INTEGER (0 + 2)
  /\ database.INTEGER (2 + 2)
  /\ crud.get_items [A; B; C] 0 2 ++ crud.get_items [A; B; C] (0 + 2) 2
     = crud.get_items [A; B; C] 0 (2 + 2).
Proof.
  assert (H1 : database.INTEGER (0 + 2)) by (unfold database.INTEGER; lia).
  assert (H2 : database.INTEGER (2 + 2)) by (unfold database.INTEGER; lia).
  split; [exact H1|]. split; [exact H2|].
  apply pages_concatenate; [lia | lia | lia | exact H1 | exact H2].
Defined.

(** X12: reading the table page after page, [n] pages of [limit] records from the
    start, returns its first [n * limit] records in order; once that reaches
    the size of the table, the pages together are the whole table.  [limit]
    is non-negative and [n * limit], hence every offset and size read, is an
    integer the driver can bind. *)
Theorem pages_cover_table (db : Session) (limit : Z) (n : nat) :
  0 <= limit ->
  database.INTEGER (Z.of_nat n * limit) ->
  flat_map (fun k => crud.get_items db (Z.of_nat k * limit) limit) (seq 0 n)
  = crud.get_items db 0 (Z.of_nat n * limit)
  /\ (Z.of_nat (List.length db) <= Z.of_nat n * limit ->
      flat_map (fun k => crud.get_items db (Z.of_nat k * limit) limit) (seq 0 n) = db).
Proof.
  intros Hl _.
  assert (Hpages : flat_map (fun k => crud.get_items db (Z.of_nat k * limit) limit) (seq 0 n)
                   = crud.get_items db 0 (Z.of_nat n * limit)).
  { induction n as [|n IH].
    - simpl. unfold crud.get_items. simpl. reflexivity.
    - rewrite seq_S, flat_map_app, IH.
      replace (Z.of_nat (S n) * limit) with (Z.of_nat n * limit + limit)
        by (rewrite Nat2Z.inj_succ; ring).
      cbn [flat_map Nat.add]. rewrite app_nil_r.
      replace (Z.of_nat n * limit) with (0 + Z.of_nat n * limit) at 2 by lia.
      apply get_items_seam; nia. }
  split; [exact Hpages|].
  intro Hall. rewrite Hpages. unfold crud.get_items. simpl.
  destruct (Z.ltb_spec (Z.of_nat n * limit) 0); [reflexivity|].
  apply firstn_all2. lia.
Qed.

Lemma pages_cover_table_witness :
  let A := InventoryItem.Build 1 (Some "Item A") None (Some true) in
  let B := InventoryItem.Build 2 (Some "Item B") None (Some true) in
  let C := InventoryItem.Build 3 (Some "Item C") None (Some true) in
  database.INTEGER (Z.of_nat 2 * 2)
  /\ flat_map (fun k => crud.get_items [A; B; C] (Z.of_nat k * 2) 2) (seq 0 2) = [A; B; C].
Proof.
  assert (Hint : database.INTEGER (Z.of_nat 2 * 2)) by (unfold database.INTEGER; simpl; lia).
  split; [exact Hint|].
  apply (proj2 (pages_cover_table
                  [InventoryItem.Build 1 (Some "Item A") None (Some true);
                   InventoryItem.Build 2 (Some "Item B") None (Some true);
                   InventoryItem.Build 3 (Some "Item C") None (Some true)] 2 2
                  ltac:(lia) Hint)).
  simpl. lia.
Defined.

(** ** Beyond the contract: what is stored can always be answered *)

Lemma serialisable_iff (r : InventoryItem.t) :
  serialisable r <->
  (exists n, InventoryItem.name r = Some n /\ (1 <= String.length n <= 100)%nat)
  /\ (forall d, InventoryItem.description r = Some d -> (String.length d <= 500)%nat)
  /\ (exists s, InventoryItem.status r = Some s).
Proof.
  unfold serialisable, InventoryItemResponse.model_validate. cbv zeta.
  destruct (InventoryItem.name r) as [n|].
  2:{ split.
      - intros [v H]. destruct (InventoryItem.description r) as [d|];
          [destruct (check_length f_description 0 500 d)|];
          destruct (InventoryItem.status r); discriminate.
      - intros [[n [H _]] _]. discriminate. }
  destruct (check_length f_name 1 100 n) as [e|n'] eqn:En.
  { split.
    - intros [v H]. destruct (InventoryItem.description r) as [d|];
        [destruct (check_length f_description 0 500 d)|];
        destruct (InventoryItem.status r); discriminate.
    - intros [[n1 [H Hlen]] _]. injection H as <-.
      assert (check_length f_name 1 100 n = inr n) by (apply check_length_inr; auto).
      congruence. }
  apply check_length_inr in En. destruct En as [-> Hlen].
  destruct (InventoryItem.description r) as [d|].
  - destruct (check_length f_description 0 500 d) as [e|d'] eqn:Ed.
    + split.
      * intros [v H]. destruct (InventoryItem.status r); discriminate.
      * intros [_ [Hd _]]. specialize (Hd d eq_refl).
        assert (check_length f_description 0 500 d = inr d)
          by (apply check_length_inr; split; [reflexivity | lia]).
        congruence.
    + apply check_length_inr in Ed. destruct Ed as [-> Hd].
      destruct (InventoryItem.status r) as [s|].
      * split; [|intros _; eexists; reflexivity].
        intros _. split; [now exists n|].
        split; [|now exists s]. intros d0 E. injection E as <-. lia.
      * split; [intros [v H]; discriminate | intros [_ [_ [s H]]]; discriminate].
  - destruct (InventoryItem.status r) as [s|].
    + split; [|intros _; eexists; reflexivity].
      intros _. split; [now exists n|]. split; [discriminate | now exists s].
    + split; [intros [v H]; discriminate | intros [_ [_ [s H]]]; discriminate].
Qed.

Lemma UPDATE_Committed_not_null (db db' : Session) (row : InventoryItem.t) :
  UPDATE db row = Committed db' ->
  (exists n, InventoryItem.name row = Some n)
  /\ (exists s, InventoryItem.status row = Some s).
Proof.
  unfold UPDATE.
  destruct (InventoryItem.name row) as [n|]; [|discriminate].
  destruct (InventoryItem.status row) as [s|]; [|discriminate].
  intros _. split; eexists; reflexivity.
Qed.

Lemma serve_respond (db : Session) (r : Request) : serve db r = snd (respond db r).
Proof.
  now destruct r.
Qed.

(** One writing request keeps every stored row acceptable to the response
    model, and an item it answers with is acceptable too. *)
Lemma respond_serialisable (db : Session) (r : Request) :
  Forall serialisable db ->
  Forall serialisable (snd (respond db r))
  /\ forall c item, fst (respond db r) = main.ItemResponse c item -> serialisable item.
Proof.
  intro Hall. destruct r as [b | i b | i]; simpl.
  - unfold main.POST_items.
    destruct (InventoryItemCreate.model_validate b) as [errors|item] eqn:Ev;
      [split; [assumption | discriminate]|].
    apply InventoryItemCreate_validated in Ev. destruct Ev as [_ [Hlen [Hd _]]].
    unfold main.create_inventory_item, main.alone.
    destruct (crud.get_item_by_name db (InventoryItemCreate.name item)) eqn:Hfree;
      [split; [assumption | discriminate]|].
    pose proof (create_item_free_name db item Hfree) as Hc. cbv zeta in Hc. rewrite Hc.
    simpl.
    assert (Hnew : serialisable
                     (InventoryItem.Build (next_rowid db) (Some (InventoryItemCreate.name item))
                        (InventoryItemCreate.description item)
                        (Some (InventoryItemCreate.status item)))).
    { apply serialisable_iff. simpl. split; [eexists; split; [reflexivity | exact Hlen]|].
      split; [|eexists; reflexivity].
      intros d E. destruct (body_description b) as [| |d0]; [congruence | congruence|].
      destruct Hd as [Hd Hdlen]. congruence. }
    split.
    + apply Forall_app. split; [assumption | now constructor].
    + intros c it E. injection E as _ <-. exact Hnew.
  - unfold main.PUT_items.
    destruct (InventoryItemUpdate.model_validate b) as [errors|item] eqn:Ev;
      [split; [assumption | discriminate]|].
    pose proof (InventoryItemUpdate_attrs b item Ev) as [An [Ad [_ [Bn Bd]]]].
    unfold main.update_inventory_item.
    destruct (crud.get_item db i) as [old|] eqn:Hget;
      [|split; [assumption | discriminate]].
    destruct (main.name_held_by_another db i item old);
      [split; [assumption | discriminate]|].
    unfold crud.update_item. unfold crud.get_item in Hget. rewrite Hget. cbv zeta.
    pose proof (setattr_loop item old) as [Ln [Ld _]].
    set (new := fold_left crud.setattr
                  (InventoryItemUpdate.model_dump_exclude_unset item) old) in *.
    destruct (UPDATE db new) as [db'|] eqn:Eu;
      [|split; [assumption | discriminate]].
    pose proof (UPDATE_Committed_not_null _ _ _ Eu) as [[n Hn] Hs].
    apply UPDATE_Committed in Eu. subst db'. simpl.
    apply find_some in Hget. destruct Hget as [Hin _].
    rewrite Forall_forall in Hall.
    pose proof (proj1 (serialisable_iff old) (Hall old Hin)) as [[n0 [Hn0 Hlen0]] [Hd0 _]].
    assert (Hnew : serialisable new).
    { apply serialisable_iff. split; [|split; [|exact Hs]].
      - exists n. split; [assumption|]. rewrite Hn in Ln.
        destruct (InventoryItemUpdate.was_set item f_name).
        + rewrite An in Ln. destruct (body_name b) as [| |n1] eqn:Eb; try discriminate.
          injection Ln as ->. now apply Bn.
        + congruence.
      - intros d Hd. rewrite Hd in Ld.
        destruct (InventoryItemUpdate.was_set item f_description).
        + rewrite Ad in Ld. destruct (body_description b) as [| |d1] eqn:Eb;
            try discriminate.
          injection Ld as ->. now apply Bd.
        + apply Hd0. congruence. }
    split.
    + apply Forall_forall. intros r Hr. apply in_map_iff in Hr.
      destruct Hr as [x [Hx Hxin]].
      destruct (InventoryItem.id x =? InventoryItem.id new); subst r;
        [exact Hnew | now apply Hall].
    + intros c it E. injection E as _ <-. exact Hnew.
  - unfold main.delete_inventory_item, crud.delete_item.
    destruct (find _ db) as [db_item|]; simpl; [|split; [assumption | discriminate]].
    split; [|discriminate].
    unfold DELETE, other_rows. rewrite Forall_forall in *.
    intros r Hr. apply filter_In in Hr. now apply Hall.
Qed.

(** X13: from a table whose rows the response model [InventoryItemResponse]
    accepts (the empty table is one), any sequence of create, update and
    delete requests leaves only rows it accepts, and every item a further
    request answers with is accepted: a stored name is never [None], empty or
    longer than 100 characters, a stored description never longer than 500,
    a stored status never [None]. *)
Theorem stored_items_always_serialise (rs : list Request) (db : Session) :
  Forall serialisable db ->
  Forall serialisable (serve_all rs db)
  /\ forall r c item,
       fst (respond (serve_all rs db) r) = main.ItemResponse c item -> serialisable item.
Proof.
  intro Hall.
  assert (Hend : Forall serialisable (serve_all rs db)).
  { unfold serve_all. revert db Hall.
    induction rs as [|r rs IH]; simpl; intros db Hall; [assumption|].
    apply IH. rewrite serve_respond. now apply respond_serialisable. }
  split; [exact Hend|].
  intros r. now apply respond_serialisable.
Qed.

Lemma stored_items_always_serialise_witness :
  let rs := [Create (MkBody (Value "Sugar") (Value "White granulated sugar") Absent);
             Update 1 (MkBody (Value "Brown sugar") Null (Value false));
             Update 1 (MkBody Null Absent Absent)] in
  Forall serialisable (serve_all rs [])
  /\ forall r c item,
       fst (respond (serve_all rs []) r) = main.ItemResponse c item -> serialisable item.
Proof.
  apply stored_items_always_serialise. constructor.
Defined.

(** ** Beyond the contract: how the operations compose *)

Lemma other_rows_appended (db : Session) (row : InventoryItem.t) :
  ~ In (InventoryItem.id row) (map InventoryItem.id db) ->
  other_rows (db ++ [row]) (InventoryItem.id row) = db.
Proof.
  intro Hfresh. unfold other_rows. rewrite filter_app. simpl.
  rewrite Z.eqb_refl. simpl. rewrite app_nil_r.
  now apply other_rows_fresh.
Qed.

(** X14: creating an item and then deleting the id the create returned puts the
    table back exactly as it was before the create. *)
Theorem create_then_delete_restores (item : InventoryItemCreate.t)
    (created : InventoryItem.t) (db db' : Session) :
  main.create_inventory_item main.alone item db = (main.ItemResponse 201 created, db') ->
  main.delete_inventory_item (InventoryItem.id created) db'
  = (main.EmptyResponse 204, db).
Proof.
  intro H. apply create_inventory_item_201 in H. destruct H as [_ [Hc ->]].
  assert (Hfresh : ~ In (InventoryItem.id created) (map InventoryItem.id db)).
  { rewrite Hc. simpl. apply next_rowid_fresh. }
  rewrite (delete_inventory_item_found _ created).
  - now rewrite other_rows_appended.
  - now apply get_item_appended.
Qed.

Lemma create_then_delete_restores_witness :
  let A := InventoryItem.Build 1 (Some "Item A") None (Some true) in
  let B := InventoryItem.Build 2 (Some "Bread") (Some "Whole wheat bread") (Some true) in
  main.delete_inventory_item 2 [A; B] = (main.EmptyResponse 204, [A]).
Proof.
  apply (create_then_delete_restores
           (InventoryItemCreate.Build "Bread" (Some "Whole wheat bread") true)
           (InventoryItem.Build 2 (Some "Bread") (Some "Whole wheat bread") (Some true))).
  reflexivity.
Defined.

(** X15: On a table that meets its constraints the two lookups agree: a stored
    item is what its id reads, and what its name looks up to. *)
Theorem lookups_agree (r : InventoryItem.t) (n : string) (db : Session) :
  table_ok db ->
  In r db ->
  InventoryItem.name r = Some n ->
  main.read_inventory_item (InventoryItem.id r) db = (main.ItemResponse 200 r, db)
  /\ crud.get_item_by_name db n = Some r.
Proof.
  intros [Hid [Hname _]] Hin Hn. split.
  - unfold main.read_inventory_item. now rewrite (get_item_of_In db r Hid Hin).
  - now apply get_item_by_name_of_In.
Qed.

Lemma lookups_agree_witness :
  let A := InventoryItem.Build 1 (Some "Item A") None (Some true) in
  let B := InventoryItem.Build 2 (Some "Item B") None (Some true) in
  main.read_inventory_item 2 [A; B] = (main.ItemResponse 200 B, [A; B])
  /\ crud.get_item_by_name [A; B] "Item B" = Some B.
Proof.
  apply (lookups_agree (InventoryItem.Build 2 (Some "Item B") None (Some true)) "Item B");
    [table_ok_by_computation | simpl; auto | reflexivity].
Defined.

Lemma setattr_loop_twice (item : InventoryItemUpdate.t) (old : InventoryItem.t) :
  let dump := InventoryItemUpdate.model_dump_exclude_unset item in
  fold_left crud.setattr dump (fold_left crud.setattr dump old)
  = fold_left crud.setattr dump old.
Proof.
  unfold InventoryItemUpdate.model_dump_exclude_unset.
  destruct (InventoryItemUpdate.was_set item f_name),
    (InventoryItemUpdate.was_set item f_description),
    (InventoryItemUpdate.was_set item f_status); destruct old; reflexivity.
Qed.

(** X16: PUT is idempotent where it succeeds: on a table that meets its
    constraints, sending an update that was answered 200 a second time gives
    the same answer and leaves the table as the first one left it. *)
Theorem update_twice_is_update_once (i : Z) (b : Body) (db : Session) :
  table_ok db ->
  main.status_code_of (fst (main.PUT_items i b db)) = 200 ->
  main.PUT_items i b (snd (main.PUT_items i b db)) = main.PUT_items i b db.
Proof.
  intros Hok H200.
  pose proof (serve_ok db (Update i b) Hok) as Hok'. simpl in Hok'.
  unfold main.PUT_items in *.
  destruct (InventoryItemUpdate.model_validate b) as [errors|item] eqn:Ev;
    [discriminate H200|].
  pose proof (InventoryItemUpdate_attrs b item Ev) as [An _].
  pose proof (InventoryItemUpdate_validated b item Ev) as [_ [_ [_ [Sn _]]]].
  destruct (crud.get_item db i) as [old|] eqn:Hget.
  2:{ unfold main.update_inventory_item in H200. rewrite Hget in H200.
      discriminate H200. }
  destruct (update_inventory_item_frame i item old db Hget)
    as [new [Hnew [_ [_ [_ [_ Hdone]]]]]].
  destruct (Hdone H200) as [Hresp [Hname _]].
  pose proof (setattr_loop_twice item old) as Htwice. cbv zeta in Htwice.
  assert (Hfirst : new = fold_left crud.setattr
                          (InventoryItemUpdate.model_dump_exclude_unset item) old
                   /\ main.update_inventory_item i item db
                      = (main.ItemResponse 200 new,
                         snd (main.update_inventory_item i item db))).
  { revert Hresp. unfold main.update_inventory_item. rewrite Hget.
    destruct (main.name_held_by_another db i item old); [discriminate|].
    unfold crud.update_item. unfold crud.get_item in Hget. rewrite Hget. cbv zeta.
    destruct (UPDATE db _) as [db'|]; [|discriminate].
    simpl. intro E. injection E as <-. auto. }
  destruct Hfirst as [Hfold Hfirst]. rewrite <- Hfold in Htwice.
  set (db' := snd (main.update_inventory_item i item db)) in *.
  rewrite Hfirst.
  unfold main.update_inventory_item. rewrite Hnew.
  assert (Hcheck : main.name_held_by_another db' i item new = false).
  { unfold main.name_held_by_another.
    destruct (InventoryItemUpdate.name item) as [n|] eqn:En; [|reflexivity].
    assert (Hset : InventoryItemUpdate.was_set item f_name = true).
    { rewrite Sn. rewrite An in En.
      destruct (body_name b); [discriminate | discriminate | reflexivity]. }
    rewrite (Hname Hset). simpl. now rewrite String.eqb_refl. }
  rewrite Hcheck. unfold crud.update_item.
  unfold crud.get_item in Hnew. rewrite Hnew. cbv zeta. rewrite Htwice.
  apply find_some in Hnew. destruct Hnew as [Hin' _].
  now rewrite (UPDATE_unchanged db' new Hok' Hin').
Qed.

Lemma update_twice_is_update_once_witness :
  let A := InventoryItem.Build 1 (Some "Item A") None (Some true) in
  let B := InventoryItem.Build 2 (Some "Item B") None (Some true) in
  let b := MkBody (Value "Item C") (Value "renamed") Absent in
  main.PUT_items 2 b (snd (main.PUT_items 2 b [A; B])) = main.PUT_items 2 b [A; B].
Proof.
  apply update_twice_is_update_once; [table_ok_by_computation | reflexivity].
Defined.
